(** * poc_espanol/generador_musica.py: the Spanish façade over ACE-Step

    A shallow embedding of [generador_musica.py]: the configuration and
    result dataclasses, the two catalogs, the lyric validator, the
    generator façade with its lazily initialised pipeline, the demo
    helper and the lyric composer, followed by the properties of the
    specification that were checked against them.

    Conventions.
    - A Python [str] is a Rocq [string] holding its UTF-8 bytes.
    - A Python [float] is a primitive binary64 [float]; a Python [int] is [Z].
    - [None] for an [Optional[T]] argument or field is [None : option T].
    - The external collaborators (the [ACEStepPipeline] constructor, the
      call of the pipeline object, [os.makedirs]) are functions of an
      abstract world; every theorem quantifies over them.
    - A method is a computation on a state that holds the world, the trace
      of the calls made on it and the object [self]; it ends with a value
      or with a raised exception, and the state reached is kept in both
      cases. *)

From Stdlib Require Import String Ascii List ZArith Bool Lia Floats DecimalString.
Import ListNotations.
Local Open Scope list_scope.
Local Open Scope string_scope.
Set Warnings "-register-all".

(** ** Python string operations *)

Module PyStr.

(** The line feed, ["\n"]. *)
Definition LF : ascii := "010"%char.
Definition nl : string := String LF "".

(** [s.startswith(p)] *)
Fixpoint startswith (p s : string) : bool :=
  match p, s with
  | "", _ => true
  | String a p', String b s' => Ascii.eqb a b && startswith p' s'
  | String _ _, "" => false
  end.

(** [p in s]: substring test. *)
Fixpoint isin (p s : string) : bool :=
  startswith p s ||
  match s with
  | "" => false
  | String _ s' => isin p s'
  end.

(** [s.endswith(p)] *)
Fixpoint endswith (p s : string) : bool :=
  String.eqb p s ||
  match s with
  | "" => false
  | String _ s' => endswith p s'
  end.

(** [s.count(p)] for a non-empty [p]: non-overlapping occurrences, left to
    right.  [skip] is the number of bytes still covered by the last match. *)
Fixpoint count_from (p s : string) (skip : nat) : nat :=
  match s with
  | "" => 0
  | String _ s' =>
      match skip with
      | S k => count_from p s' k
      | O => if startswith p s
             then S (count_from p s' (String.length p - 1))
             else count_from p s' 0
      end
  end.

Definition count (p s : string) : nat := count_from p s 0.

(** [sep.join(parts)] *)
Fixpoint join (sep : string) (parts : list string) : string :=
  match parts with
  | [] => ""
  | [x] => x
  | x :: rest => x ++ sep ++ join sep rest
  end.

(** [s.split("\n")]: [cur] is the part of the current line read so far. *)
Fixpoint split_lines_aux (s : string) (cur : string) : list string :=
  match s with
  | "" => [cur]
  | String c s' =>
      if Ascii.eqb c LF then cur :: split_lines_aux s' ""
      else split_lines_aux s' (cur ++ String c "")
  end.

Definition split_lines (s : string) : list string := split_lines_aux s "".

(** ASCII lowering of one byte. *)
Definition lower_ascii (c : ascii) : ascii :=
  let n := nat_of_ascii c in
  if (65 <=? n)%nat && (n <=? 90)%nat then ascii_of_nat (n + 32) else c.

(** [s.lower()] on the ASCII letters; bytes of non-ASCII characters are
    kept.  The only use in the program is the search for the ASCII section
    markers in the lowered text, and no non-ASCII character lowers to a
    sequence that completes one of them, so the search is unaffected. *)
Fixpoint lower (s : string) : string :=
  match s with
  | "" => ""
  | String c s' => String (lower_ascii c) (lower s')
  end.

(** Whitespace for [str.strip()], one-byte characters: TAB, LF, VT, FF, CR,
    FS, GS, RS, US and the space. *)
Definition space1 (c : ascii) : bool :=
  let n := nat_of_ascii c in
  ((9 <=? n)%nat && (n <=? 13)%nat) || ((28 <=? n)%nat && (n <=? 32)%nat).

(** Two-byte whitespace: U+0085 and U+00A0 (C2 85, C2 A0). *)
Definition space2 (a b : ascii) : bool :=
  (nat_of_ascii a =? 194)%nat &&
  ((nat_of_ascii b =? 133)%nat || (nat_of_ascii b =? 160)%nat).

(** Three-byte whitespace: U+1680, U+2000..U+200A, U+2028, U+2029, U+202F,
    U+205F and U+3000. *)
Definition space3 (a b c : ascii) : bool :=
  let x := nat_of_ascii a in
  let y := nat_of_ascii b in
  let z := nat_of_ascii c in
  ((x =? 225) && (y =? 154) && (z =? 128))%nat ||
  ((x =? 226) && (y =? 128) &&
     (((128 <=? z) && (z <=? 138)) || (z =? 168) || (z =? 169) || (z =? 175)))%nat ||
  ((x =? 226) && (y =? 129) && (z =? 159))%nat ||
  ((x =? 227) && (y =? 128) && (z =? 128))%nat.

(** [s.lstrip()] *)
Fixpoint lstrip (s : string) : string :=
  match s with
  | "" => ""
  | String a r =>
      if space1 a then lstrip r
      else
        match r with
        | String b r' =>
            if space2 a b then lstrip r'
            else
              match r' with
              | String c r'' => if space3 a b c then lstrip r'' else s
              | "" => s
              end
        | "" => s
        end
  end.

(** The text holds whitespace only (or nothing). *)
Definition isblank (s : string) : bool :=
  match lstrip s with "" => true | _ => false end.

(** [s.rstrip()] *)
Fixpoint rstrip (s : string) : string :=
  match s with
  | "" => ""
  | String a r => if isblank s then "" else String a (rstrip r)
  end.

(** [s.strip()] *)
Definition strip (s : string) : string := rstrip (lstrip s).

(** Truth value of a string: non-empty. *)
Definition truthy (s : string) : bool :=
  match s with "" => false | _ => true end.

End PyStr.

(** [os.path.join(a, b)] with the POSIX separator. *)
Definition os_path_join (a b : string) : string :=
  if PyStr.startswith "/" b then b
  else if negb (PyStr.truthy a) || PyStr.endswith "/" a then a ++ b
  else a ++ "/" ++ b.

(** ** Python values handed back by the external pipeline *)

Inductive pyval : Type :=
| PyNone
| PyBool (b : bool)
| PyInt (z : Z)
| PyFloat (f : float)
| PyStr (s : string)
| PyList (l : list pyval)
| PyTuple (l : list pyval)
| PyDict (d : list (string * pyval)).

(** A dictionary with string keys, in insertion order. *)
Fixpoint dict_lookup {A : Type} (d : list (string * A)) (k : string) : option A :=
  match d with
  | [] => None
  | (k', v) :: d' => if String.eqb k k' then Some v else dict_lookup d' k
  end.

(** [k in d] *)
Definition dict_contains {A : Type} (d : list (string * A)) (k : string) : bool :=
  match dict_lookup d k with Some _ => true | None => false end.

(** [d.keys()] *)
Definition dict_keys {A : Type} (d : list (string * A)) : list string := map fst d.

(** [d.get(k, default)] *)
Definition dict_get (d : list (string * pyval)) (k : string) (default : pyval) : pyval :=
  match dict_lookup d k with Some v => v | None => default end.

(** ** The dataclasses *)

Record ConfiguracionGeneracion : Type := mkConfiguracionGeneracion {
  duracion_segundos : float;
  formato_salida : string;
  pasos_inferencia : Z;
  escala_guia : float;
  tipo_scheduler : string;
  tipo_cfg : string;
  escala_omega : float;
  intervalo_guia : float;
  decaimiento_guia : float;
  escala_guia_minima : float;
  usar_erg_tag : bool;
  usar_erg_letra : bool;
  usar_erg_difusion : bool;
  semillas : option (list Z);
  directorio_salida : string;
  ruta_checkpoint : option string;
  id_dispositivo : Z;
  usar_bf16 : bool;
  usar_cpu_offload : bool;
  usar_torch_compile : bool
}.

(** [ConfiguracionGeneracion()]: every field at its declared default. *)
Definition ConfiguracionGeneracion_defecto : ConfiguracionGeneracion := {|
  duracion_segundos := 60.0%float;
  formato_salida := "wav";
  pasos_inferencia := 60;
  escala_guia := 15.0%float;
  tipo_scheduler := "euler";
  tipo_cfg := "apg";
  escala_omega := 10.0%float;
  intervalo_guia := 0.5%float;
  decaimiento_guia := 0.0%float;
  escala_guia_minima := 3.0%float;
  usar_erg_tag := true;
  usar_erg_letra := true;
  usar_erg_difusion := true;
  semillas := None;
  directorio_salida := "./salidas_espanol";
  ruta_checkpoint := None;
  id_dispositivo := 0;
  usar_bf16 := true;
  usar_cpu_offload := false;
  usar_torch_compile := false
|}.

(** Keyword arguments of the constructor used by [generar_demo]; a keyword
    left out ([None]) keeps the default. *)
Definition ConfiguracionGeneracion_kw
    (kw_duracion_segundos : option float) (kw_pasos_inferencia : option Z)
    (kw_escala_guia : option float) : ConfiguracionGeneracion :=
  let d := ConfiguracionGeneracion_defecto in
  {|
    duracion_segundos :=
      match kw_duracion_segundos with Some x => x | None => duracion_segundos d end;
    formato_salida := formato_salida d;
    pasos_inferencia :=
      match kw_pasos_inferencia with Some x => x | None => pasos_inferencia d end;
    escala_guia := match kw_escala_guia with Some x => x | None => escala_guia d end;
    tipo_scheduler := tipo_scheduler d;
    tipo_cfg := tipo_cfg d;
    escala_omega := escala_omega d;
    intervalo_guia := intervalo_guia d;
    decaimiento_guia := decaimiento_guia d;
    escala_guia_minima := escala_guia_minima d;
    usar_erg_tag := usar_erg_tag d;
    usar_erg_letra := usar_erg_letra d;
    usar_erg_difusion := usar_erg_difusion d;
    semillas := semillas d;
    directorio_salida := directorio_salida d;
    ruta_checkpoint := ruta_checkpoint d;
    id_dispositivo := id_dispositivo d;
    usar_bf16 := usar_bf16 d;
    usar_cpu_offload := usar_cpu_offload d;
    usar_torch_compile := usar_torch_compile d
  |}.

Record ResultadoGeneracion : Type := mkResultadoGeneracion {
  exitoso : bool;
  ruta_audio : option string;
  mensaje : string;
  parametros : list (string * pyval);
  tiempos : pyval;
  semillas_usadas : pyval
}.

(** [ResultadoGeneracion(exitoso=False, mensaje=m)]: the other fields take
    their defaults ([None], empty dictionaries, the empty list). *)
Definition resultado_fallido (m : string) : ResultadoGeneracion := {|
  exitoso := false;
  ruta_audio := None;
  mensaje := m;
  parametros := [];
  tiempos := PyDict [];
  semillas_usadas := PyList []
|}.

(** ** The catalogs *)

Definition GENEROS_ESPANOL : list (string * string) := [
  ("pop_latino", "pop, latin pop, tropical, catchy, upbeat, spanish");
  ("reggaeton", "reggaeton, urban latin, dembow, perreo, trap latino");
  ("balada", "ballad, romantic, slow, emotional, acoustic guitar, piano");
  ("rock_espanol", "rock en español, rock latino, guitar, drums, energetic");
  ("cumbia", "cumbia, tropical, accordion, dance, festive, colombian");
  ("salsa", "salsa, tropical, brass, piano, percussion, dance");
  ("bachata", "bachata, romantic, guitar, dominican, sensual");
  ("flamenco", "flamenco, spanish guitar, passionate, rhythmic, andalusian");
  ("mariachi", "mariachi, mexican, trumpet, violin, traditional");
  ("tango", "tango, argentine, bandoneon, dramatic, passionate");
  ("urbano", "urban, trap, hip hop latino, 808, autotune");
  ("folclore", "folk, acoustic, traditional, spanish, guitar")
].

Definition PLANTILLAS_LETRAS : list (string * string) := [
  ("amor", "[verse]
Cada vez que te veo pasar
Mi corazón empieza a latir
No puedo dejar de pensar
En todo lo que quiero decir

[chorus]
Porque tú eres mi luz
Mi camino y mi razón
Contigo todo es mejor
Eres dueña de mi corazón

[verse]
Las noches son más largas sin ti
Los días pierden su color
Pero cuando estás aquí
Todo brilla con tu amor

[chorus]
Porque tú eres mi luz
Mi camino y mi razón
Contigo todo es mejor
Eres dueña de mi corazón");
  ("fiesta", "[verse]
La noche está encendida
La música suena sin parar
Todos juntos en la pista
Es hora de bailar

[chorus]
Mueve el cuerpo al ritmo
Siente la vibración
Esta noche es nuestra
Vive la emoción

[verse]
Las luces parpadean
El DJ sube el volumen
Los problemas se alejan
Que la fiesta no se detenga

[chorus]
Mueve el cuerpo al ritmo
Siente la vibración
Esta noche es nuestra
Vive la emoción");
  ("reflexion", "[verse]
Caminando por las calles vacías
Pensando en lo que pudo ser
Recuerdos de mejores días
Que no van a volver

[bridge]
Pero aprendí a levantarme
Cada vez que caí
A no rendirme nunca
A creer en mí

[chorus]
Porque la vida sigue adelante
Con sus altos y sus bajos
Lo importante es ser constante
Y dar siempre lo máximo

[verse]
El tiempo cura las heridas
Las tormentas siempre pasan
Nuevas puertas se abren
Cuando otras se cierran")
].

(** ** The lyric validator *)

Definition secciones_validas : list string :=
  ["[verse]"; "[chorus]"; "[bridge]"; "[intro]"; "[outro]"].

(** The comprehension of [validar_letra]: the stripped lines of the text
    that are non-empty once stripped and do not start with a bracket. *)
Definition lineas_de_texto (letra : string) : list string :=
  map PyStr.strip
    (filter (fun l => PyStr.truthy (PyStr.strip l) &&
                      negb (PyStr.startswith "[" (PyStr.strip l)))
            (PyStr.split_lines letra)).

Definition validar_letra (letra : string) : bool * string :=
  if negb (PyStr.truthy letra) || negb (PyStr.truthy (PyStr.strip letra)) then
    (false, "La letra no puede estar vacía")
  else
    let tiene_seccion :=
      existsb (fun seccion => PyStr.isin seccion (PyStr.lower letra)) secciones_validas in
    if negb tiene_seccion then
      (false, "La letra debe contener al menos una sección ([verse], [chorus], etc.)")
    else
      let lineas := lineas_de_texto letra in
      if (List.length lineas <? 4)%nat then
        (false, "La letra debe contener al menos 4 líneas de texto")
      else (true, "").

(** ** The lyric composer *)

(** The f-string of a block: the marker, a line feed, the text. *)
Definition bloque (marca texto : string) : string := marca ++ PyStr.nl ++ texto.

(** The loop over [enumerate(versos)], from index [i]. *)
Fixpoint partes_versos (i : nat) (versos : list string) (coro : string) : list string :=
  match versos with
  | [] => []
  | verso :: resto =>
      (bloque "[verse]" verso ::
       (if (i =? 0)%nat then [bloque "[chorus]" coro] else [])
       ++ partes_versos (S i) resto coro)%list
  end.

(** The list [partes] at the end of [crear_letra_personalizada]. *)
Definition partes_letra (versos : list string) (coro : string) (bridge : option string)
  : list string :=
  (partes_versos 0 versos coro ++
   match bridge with
   | Some b =>
       if PyStr.truthy b
       then [bloque "[bridge]" b; bloque "[chorus]" coro]
       else []
   | None => []
   end)%list.

Definition crear_letra_personalizada
    (versos : list string) (coro : string) (bridge : option string) : string :=
  PyStr.join (PyStr.nl ++ PyStr.nl) (partes_letra versos coro bridge).

(** ** The external collaborators *)

(** An exception raised by an external collaborator; [str(e)] is its text.
    Only instances of [Exception] are modelled, the class both handlers of
    the program catch.  What passes through an [except Exception]
    ([KeyboardInterrupt], [SystemExit]) and a [print] that fails are
    outside the model: a statement about a collaborator that raises is
    about an exception the handlers catch, and none says that a method
    cannot be left by another one. *)
Inductive exc : Type := Exception (texto : string).

Definition exc_str (e : exc) : string := match e with Exception t => t end.

(** What a call produces: a value, or a raised exception. *)
Inductive res (A : Type) : Type :=
| Ok (a : A)
| Raise (e : exc).
Arguments Ok {A} a.
Arguments Raise {A} e.

(** The keyword arguments of [ACEStepPipeline(...)]. *)
Record ctor_args : Type := {
  checkpoint_dir : option string;
  device_id : Z;
  dtype : string;
  torch_compile : bool;
  cpu_offload : bool
}.

(** The keyword arguments of the pipeline call. *)
Record call_args : Type := {
  format : string;
  audio_duration : float;
  prompt : string;
  lyrics : string;
  infer_step : Z;
  guidance_scale : float;
  scheduler_type : string;
  cfg_type : string;
  omega_scale : float;
  manual_seeds : option (list Z);
  guidance_interval : float;
  guidance_interval_decay : float;
  min_guidance_scale : float;
  use_erg_tag : bool;
  use_erg_lyric : bool;
  use_erg_diffusion : bool;
  save_path : string
}.

(** The behaviour of everything outside the repository, as functions of an
    abstract world [Mundo]: importing and constructing the pipeline,
    calling a pipeline handle, and [os.makedirs(d, exist_ok=True)]. *)
Record Exterior (Mundo Handle : Type) : Type := {
  ext_ACEStepPipeline : ctor_args -> Mundo -> Mundo * res Handle;
  ext_call : Handle -> call_args -> Mundo -> Mundo * res pyval;
  ext_makedirs : string -> Mundo -> Mundo * res unit
}.
Arguments ext_ACEStepPipeline {Mundo Handle}.
Arguments ext_call {Mundo Handle}.
Arguments ext_makedirs {Mundo Handle}.

(** The calls the façade makes on the outside, in order. *)
Inductive evento (Handle : Type) : Type :=
| EvConstruir (a : ctor_args)
| EvInvocar (h : Handle) (a : call_args)
| EvMakedirs (d : string)
| EvPrint (s : string).
Arguments EvConstruir {Handle} a.
Arguments EvInvocar {Handle} h a.
Arguments EvMakedirs {Handle} d.
Arguments EvPrint {Handle} s.

(** ** The generator façade *)

(** The instance attributes of [GeneradorMusicaEspanol]. *)
Record GeneradorMusicaEspanol (Handle : Type) : Type := {
  config : ConfiguracionGeneracion;
  _pipeline : option Handle;
  _inicializado : bool
}.
Arguments config {Handle}.
Arguments _pipeline {Handle}.
Arguments _inicializado {Handle}.

(** [GeneradorMusicaEspanol.__init__(config)] *)
Definition GeneradorMusicaEspanol_init {Handle : Type}
    (cfg : option ConfiguracionGeneracion) : GeneradorMusicaEspanol Handle := {|
  config := match cfg with Some c => c | None => ConfiguracionGeneracion_defecto end;
  _pipeline := None;
  _inicializado := false
|}.

(** The state a method runs in: the outside world, the trace of the calls
    made on it so far, and the object [self]. *)
Record Estado (Mundo Handle : Type) : Type := {
  mundo : Mundo;
  traza : list (evento Handle);
  yo : GeneradorMusicaEspanol Handle
}.
Arguments mundo {Mundo Handle}.
Arguments traza {Mundo Handle}.
Arguments yo {Mundo Handle}.

Section Fachada.

Context {Mundo Handle : Type}.
Variable ext : Exterior Mundo Handle.

Let Est : Type := Estado Mundo Handle.

(** Computations that read and write the state and may raise; the state
    reached when an exception is raised is kept, as attribute writes and
    outside effects are in Python. *)
Definition M (A : Type) : Type := Est -> Est * res A.

Definition ret {A : Type} (a : A) : M A := fun st => (st, Ok a).

Definition raise {A : Type} (e : exc) : M A := fun st => (st, Raise e).

Definition bind {A B : Type} (c : M A) (k : A -> M B) : M B :=
  fun st =>
    match c st with
    | (st', Ok a) => k a st'
    | (st', Raise e) => (st', Raise e)
    end.

(** [try: c  except Exception as e: h e] *)
Definition try_except {A : Type} (c : M A) (h : exc -> M A) : M A :=
  fun st =>
    match c st with
    | (st', Ok a) => (st', Ok a)
    | (st', Raise e) => h e st'
    end.

Notation "x <- c ;; k" := (bind c (fun x => k))
  (at level 61, c at next level, right associativity).
Notation "c ;;; k" := (bind c (fun _ => k))
  (at level 61, right associativity).

Definition registrar (ev : evento Handle) (st : Est) : Est :=
  {| mundo := mundo st; traza := (traza st ++ [ev])%list; yo := yo st |}.

Definition get_self : M (GeneradorMusicaEspanol Handle) := fun st => (st, Ok (yo st)).

Definition set_self (g : GeneradorMusicaEspanol Handle) : M unit :=
  fun st => ({| mundo := mundo st; traza := traza st; yo := g |}, Ok tt).

(** Run an outside function on the world and record the call. *)
Definition externo {A : Type} (ev : evento Handle) (f : Mundo -> Mundo * res A) : M A :=
  fun st =>
    let (w, r) := f (mundo st) in
    ({| mundo := w; traza := (traza st ++ [ev])%list; yo := yo st |}, r).

Definition ACEStepPipeline (a : ctor_args) : M Handle :=
  externo (EvConstruir a) (ext_ACEStepPipeline ext a).

(** Calling [self._pipeline(...)]: calling [None] raises a [TypeError]. *)
Definition llamar (p : option Handle) (a : call_args) : M pyval :=
  match p with
  | Some h => externo (EvInvocar h a) (ext_call ext h a)
  | None => raise (Exception "'NoneType' object is not callable")
  end.

Definition os_makedirs (d : string) : M unit :=
  externo (EvMakedirs d) (ext_makedirs ext d).

Definition print (s : string) : M unit := fun st => (registrar (EvPrint s) st, Ok tt).

(** [d[k]]: a missing key raises a [KeyError]. *)
Definition getitem (d : list (string * string)) (k : string) : M string :=
  match dict_lookup d k with
  | Some v => ret v
  | None => raise (Exception ("'" ++ k ++ "'"))
  end.

Definition _inicializar_pipeline : M bool :=
  self <- get_self ;;
  if _inicializado self then ret true
  else
    try_except
      (h <- ACEStepPipeline {|
              checkpoint_dir := ruta_checkpoint (config self);
              device_id := id_dispositivo (config self);
              dtype := if usar_bf16 (config self) then "bfloat16" else "float32";
              torch_compile := usar_torch_compile (config self);
              cpu_offload := usar_cpu_offload (config self) |} ;;
       set_self {| config := config self; _pipeline := Some h;
                   _inicializado := _inicializado self |} ;;;
       set_self {| config := config self; _pipeline := Some h;
                   _inicializado := true |} ;;;
       ret true)
      (fun e =>
         print ("Error al inicializar el pipeline: " ++ exc_str e) ;;;
         ret false).

(** The extraction of the result from what the pipeline returned. *)
Definition extraer_resultado (resultado : pyval) : ResultadoGeneracion :=
  match resultado with
  | PyList (primero :: resto) =>
      let ruta := match primero with PyStr s => Some s | _ => None end in
      let params :=
        match last (primero :: resto) PyNone with PyDict d => d | _ => [] end in
      {| exitoso := true;
         ruta_audio := ruta;
         mensaje := "Generación completada exitosamente";
         parametros := params;
         tiempos := dict_get params "timecosts" (PyDict []);
         semillas_usadas := dict_get params "actual_seeds" (PyList []) |}
  | _ => resultado_fallido "El modelo no retornó un resultado válido"
  end.

Definition generar_cancion
    (genero : string) (letra : option string) (duracion : float)
    (semilla : option Z) (nombre_archivo : option string) : M ResultadoGeneracion :=
  if negb (dict_contains GENEROS_ESPANOL genero) then
    let generos_validos := PyStr.join ", " (dict_keys GENEROS_ESPANOL) in
    ret (resultado_fallido
           ("Género '" ++ genero ++ "' no válido. Géneros disponibles: "
            ++ generos_validos))
  else
    letra <- match letra with
             | None => getitem PLANTILLAS_LETRAS "amor"
             | Some l => ret l
             end ;;
    let (es_valida, error) := validar_letra letra in
    if negb es_valida then
      ret (resultado_fallido ("Error en la letra: " ++ error))
    else if (duracion <? 10)%float || (240 <? duracion)%float then
      ret (resultado_fallido "La duración debe estar entre 10 y 240 segundos")
    else
      listo <- _inicializar_pipeline ;;
      if negb listo then
        ret (resultado_fallido
               "No se pudo inicializar el modelo. Verifica que tienes suficiente memoria GPU.")
      else
        self <- get_self ;;
        os_makedirs (directorio_salida (config self)) ;;;
        let ruta_salida :=
          match nombre_archivo with
          | Some n =>
              if PyStr.truthy n
              then os_path_join (directorio_salida (config self))
                     (n ++ "." ++ formato_salida (config self))
              else directorio_salida (config self)
          | None => directorio_salida (config self)
          end in
        try_except
          (prompt_genero <- getitem GENEROS_ESPANOL genero ;;
           let semillas_efectivas :=
             match semilla with
             | Some z => if (z =? 0)%Z then semillas (config self) else Some [z]
             | None => semillas (config self)
             end in
           resultado <- llamar (_pipeline self) {|
               format := formato_salida (config self);
               audio_duration := duracion;
               prompt := prompt_genero;
               lyrics := letra;
               infer_step := pasos_inferencia (config self);
               guidance_scale := escala_guia (config self);
               scheduler_type := tipo_scheduler (config self);
               cfg_type := tipo_cfg (config self);
               omega_scale := escala_omega (config self);
               manual_seeds := semillas_efectivas;
               guidance_interval := intervalo_guia (config self);
               guidance_interval_decay := decaimiento_guia (config self);
               min_guidance_scale := escala_guia_minima (config self);
               use_erg_tag := usar_erg_tag (config self);
               use_erg_lyric := usar_erg_letra (config self);
               use_erg_diffusion := usar_erg_difusion (config self);
               save_path := ruta_salida |} ;;
           ret (extraer_resultado resultado))
          (fun e =>
             ret (resultado_fallido ("Error durante la generación: " ++ exc_str e))).

(** [generar_demo]: a temporary generator on the demo configuration takes
    the handle and the flag of [self] and runs [generar_cancion]; [self]
    itself is left as it was, whatever the temporary generator became. *)
Definition generar_demo (genero : string) : M ResultadoGeneracion :=
  fun st =>
    let self := yo st in
    let config_demo :=
      ConfiguracionGeneracion_kw (Some 30.0%float) (Some 27%Z) (Some 12.0%float) in
    let nuevo : GeneradorMusicaEspanol Handle :=
      GeneradorMusicaEspanol_init (Some config_demo) in
    let generador_demo : GeneradorMusicaEspanol Handle :=
      {| config := config nuevo;
         _pipeline := _pipeline self;
         _inicializado := _inicializado self |} in
    let (st', r) :=
      generar_cancion genero None 30.0%float None (Some ("demo_" ++ genero))
        {| mundo := mundo st; traza := traza st; yo := generador_demo |} in
    ({| mundo := mundo st'; traza := traza st'; yo := self |}, r).

End Fachada.

(** ** The vocabulary of the specification *)

(** A marker occurs in a text without regard to case when some substring
    of the text equals the marker once its letters are lowered. *)
Definition aparece_sin_caja (marca texto : string) : Prop :=
  exists pre mid post, texto = pre ++ mid ++ post /\ PyStr.lower mid = marca.

(** One whitespace character, as the bytes of its UTF-8 encoding. *)
Inductive espacio : string -> Prop :=
| espacio1 (a : ascii) :
    PyStr.space1 a = true -> espacio (String a "")
| espacio2 (a b : ascii) :
    PyStr.space2 a b = true -> espacio (String a (String b ""))
| espacio3 (a b c : ascii) :
    PyStr.space3 a b c = true -> espacio (String a (String b (String c ""))).

(** The text is empty or holds whitespace only. *)
Inductive solo_espacios : string -> Prop :=
| solo_nada : solo_espacios ""
| solo_mas (e s : string) : espacio e -> solo_espacios s -> solo_espacios (e ++ s).

(** The lines left once the lines that are empty when stripped, and those
    whose stripped form starts with a bracket, are dropped. *)
Definition lineas_restantes (texto : string) : list string :=
  filter (fun l => negb (String.eqb (PyStr.strip l) "" ||
                         PyStr.startswith "[" (PyStr.strip l)))
         (PyStr.split_lines texto).

(** The same under the other reading of "lines that are empty": a line is
    dropped when it holds no character at all, or when its stripped form
    starts with a bracket; a line of spaces stays. *)
Definition lineas_restantes_literal (texto : string) : list string :=
  filter (fun l => negb (String.eqb l "" || PyStr.startswith "[" (PyStr.strip l)))
         (PyStr.split_lines texto).

(** Lyrics of a marker, three lines of text and a last line of three
    spaces. *)
Definition letra_con_linea_en_blanco : string :=
  "[verse]" ++ PyStr.nl ++ "a" ++ PyStr.nl ++ "b" ++ PyStr.nl ++ "c" ++ PyStr.nl ++ "   ".

(** The text does not contain the marker. *)
Definition sin_marca (marca texto : string) : Prop := PyStr.isin marca texto = false.

(** The separator between two blocks: a blank line. *)
Definition separador : string := PyStr.nl ++ PyStr.nl.

(** The template used when no lyrics are passed. *)
Definition plantilla_amor : string :=
  match dict_lookup PLANTILLAS_LETRAS "amor" with Some t => t | None => "" end.

(** The lyrics a call works with: those passed, or the default template. *)
Definition letra_efectiva (letra : option string) : string :=
  match letra with Some l => l | None => plantilla_amor end.

(** The duration lies outside the accepted range: [d < 10] or [d > 240]. *)
Definition fuera_de_rango (d : float) : bool := ((d <? 10) || (240 <? d))%float.

(** The constructor arguments the façade derives from a configuration. *)
Definition argumentos_constructor (c : ConfiguracionGeneracion) : ctor_args := {|
  checkpoint_dir := ruta_checkpoint c;
  device_id := id_dispositivo c;
  dtype := if usar_bf16 c then "bfloat16" else "float32";
  torch_compile := usar_torch_compile c;
  cpu_offload := usar_cpu_offload c
|}.

(** The seed lists handed to the pipeline, call after call. *)
Fixpoint semillas_entregadas {Handle : Type} (t : list (evento Handle))
  : list (option (list Z)) :=
  match t with
  | [] => []
  | EvInvocar _ a :: t' => manual_seeds a :: semillas_entregadas t'
  | _ :: t' => semillas_entregadas t'
  end.

(** The message texts of the failures. *)
Definition mensaje_duracion : string := "La duración debe estar entre 10 y 240 segundos".
Definition mensaje_inicio : string :=
  "No se pudo inicializar el modelo. Verifica que tienes suficiente memoria GPU.".
Definition mensaje_exito : string := "Generación completada exitosamente".

(** The seed list handed to the pipeline, as the code resolves it: the
    passed seed when it is truthy, the list of the configuration otherwise. *)
Definition semillas_resueltas (semilla : option Z) (c : ConfiguracionGeneracion)
  : option (list Z) :=
  match semilla with
  | Some z => if (z =? 0)%Z then semillas c else Some [z]
  | None => semillas c
  end.

(** The path handed to the pipeline as [save_path]. *)
Definition ruta_de_salida (c : ConfiguracionGeneracion) (nombre_archivo : option string)
  : string :=
  match nombre_archivo with
  | Some n =>
      if PyStr.truthy n
      then os_path_join (directorio_salida c) (n ++ "." ++ formato_salida c)
      else directorio_salida c
  | None => directorio_salida c
  end.

(** The keyword arguments of the pipeline call for a configuration and the
    arguments of [generar_cancion]. *)
Definition argumentos_llamada (c : ConfiguracionGeneracion) (prompt_genero letra : string)
    (duracion : float) (semilla : option Z) (nombre_archivo : option string)
  : call_args := {|
  format := formato_salida c;
  audio_duration := duracion;
  prompt := prompt_genero;
  lyrics := letra;
  infer_step := pasos_inferencia c;
  guidance_scale := escala_guia c;
  scheduler_type := tipo_scheduler c;
  cfg_type := tipo_cfg c;
  omega_scale := escala_omega c;
  manual_seeds := semillas_resueltas semilla c;
  guidance_interval := intervalo_guia c;
  guidance_interval_decay := decaimiento_guia c;
  min_guidance_scale := escala_guia_minima c;
  use_erg_tag := usar_erg_tag c;
  use_erg_lyric := usar_erg_letra c;
  use_erg_diffusion := usar_erg_difusion c;
  save_path := ruta_de_salida c nombre_archivo
|}.

(** The message of the failure on an unknown genre. *)
Definition mensaje_genero (genero : string) : string :=
  "Género '" ++ genero ++ "' no válido. Géneros disponibles: " ++
  PyStr.join ", " (dict_keys GENEROS_ESPANOL).

(** ** The façade, path by path

    The same methods written as plain case analyses on what the outside
    answers; they are proved equal to the monadic definitions above and
    carry the proofs. *)

Section Plano.

Context {Mundo Handle : Type}.
Variable ext : Exterior Mundo Handle.

(** The state after an outside call that left the world [w]. *)
Definition tras_evento (st : Estado Mundo Handle) (w : Mundo) (evs : list (evento Handle))
  : Estado Mundo Handle :=
  {| mundo := w; traza := (traza st ++ evs)%list; yo := yo st |}.

(** [_inicializar_pipeline], path by path. *)
Definition inicializar_plano (st : Estado Mundo Handle)
  : Estado Mundo Handle * res bool :=
  let a := argumentos_constructor (config (yo st)) in
  if _inicializado (yo st) then (st, Ok true)
  else
    match ext_ACEStepPipeline ext a (mundo st) with
    | (w, Ok h) =>
        ({| mundo := w;
            traza := (traza st ++ [EvConstruir a])%list;
            yo := {| config := config (yo st); _pipeline := Some h;
                     _inicializado := true |} |}, Ok true)
    | (w, Raise e) =>
        (tras_evento st w
           [EvConstruir a; EvPrint ("Error al inicializar el pipeline: " ++ exc_str e)],
         Ok false)
    end.

(** [generar_cancion] from the call of [os.makedirs] on, in a state whose
    pipeline is taken as initialised. *)
Definition generar_plano_listo (prompt_genero letra : string) (duracion : float)
    (semilla : option Z) (nombre_archivo : option string) (st1 : Estado Mundo Handle)
  : Estado Mundo Handle * res ResultadoGeneracion :=
  let c := config (yo st1) in
  match ext_makedirs ext (directorio_salida c) (mundo st1) with
  | (w, Raise e) => (tras_evento st1 w [EvMakedirs (directorio_salida c)], Raise e)
  | (w, Ok _) =>
      let st2 := tras_evento st1 w [EvMakedirs (directorio_salida c)] in
      let a := argumentos_llamada c prompt_genero letra duracion semilla nombre_archivo in
      match _pipeline (yo st1) with
      | None =>
          (st2, Ok (resultado_fallido
                      "Error durante la generación: 'NoneType' object is not callable"))
      | Some h =>
          match ext_call ext h a w with
          | (w', Ok v) => (tras_evento st2 w' [EvInvocar h a], Ok (extraer_resultado v))
          | (w', Raise e) =>
              (tras_evento st2 w' [EvInvocar h a],
               Ok (resultado_fallido ("Error durante la generación: " ++ exc_str e)))
          end
      end
  end.

(** [generar_cancion], path by path. *)
Definition generar_cancion_plano (genero : string) (letra : option string)
    (duracion : float) (semilla : option Z) (nombre_archivo : option string)
    (st : Estado Mundo Handle) : Estado Mundo Handle * res ResultadoGeneracion :=
  match dict_lookup GENEROS_ESPANOL genero with
  | None => (st, Ok (resultado_fallido (mensaje_genero genero)))
  | Some prompt_genero =>
      match validar_letra (letra_efectiva letra) with
      | (false, error) => (st, Ok (resultado_fallido ("Error en la letra: " ++ error)))
      | (true, _) =>
          if fuera_de_rango duracion then (st, Ok (resultado_fallido mensaje_duracion))
          else
            match inicializar_plano st with
            | (st1, Ok true) =>
                generar_plano_listo prompt_genero (letra_efectiva letra) duracion semilla
                  nombre_archivo st1
            | (st1, Ok false) => (st1, Ok (resultado_fallido mensaje_inicio))
            | (st1, Raise e) => (st1, Raise e)
            end
      end
  end.

(** A call made on the façade. *)
Inductive llamada : Type :=
| LlamarCancion (genero : string) (letra : option string) (duracion : float)
    (semilla : option Z) (nombre_archivo : option string)
| LlamarDemo (genero : string).

(** The state after one call, whatever it returned or raised. *)
Definition ejecutar1 (c : llamada) (st : Estado Mundo Handle) : Estado Mundo Handle :=
  match c with
  | LlamarCancion genero letra duracion semilla nombre_archivo =>
      fst (generar_cancion ext genero letra duracion semilla nombre_archivo st)
  | LlamarDemo genero => fst (generar_demo ext genero st)
  end.

(** The state after a sequence of calls. *)
Fixpoint ejecutar (cs : list llamada) (st : Estado Mundo Handle) : Estado Mundo Handle :=
  match cs with
  | [] => st
  | c :: cs' => ejecutar cs' (ejecutar1 c st)
  end.

(** An event of a façade whose pipeline attribute is [p] and which does not
    initialise: no construction, and every pipeline call on [p] itself. *)
Definition sin_reinicio (p : option Handle) (ev : evento Handle) : Prop :=
  match ev with
  | EvConstruir _ => False
  | EvInvocar h _ => p = Some h
  | _ => True
  end.

(** What a call of [generar_cancion] may do outside, given the stored
    configuration and the arguments: construct the pipeline from the
    configuration, create the output directory of the configuration, call
    the pipeline with the arguments derived from both, and print. *)
Definition evento_esperado (c : ConfiguracionGeneracion) (genero : string)
    (letra : option string) (duracion : float) (semilla : option Z)
    (nombre_archivo : option string) (ev : evento Handle) : Prop :=
  match ev with
  | EvConstruir a => a = argumentos_constructor c
  | EvMakedirs d => d = directorio_salida c
  | EvInvocar _ a =>
      exists p, dict_lookup GENEROS_ESPANOL genero = Some p /\
                a = argumentos_llamada c p (letra_efectiva letra) duracion semilla
                      nombre_archivo
  | EvPrint _ => True
  end.

End Plano.

(** *** A small concrete outside world

    The world counts the calls made on it; a handle is a number.  Each of
    the three collaborators always answers the same way. *)
Definition exterior_fijo (construccion : res nat) (directorio : res unit)
    (llamada : res pyval) : Exterior nat nat := {|
  ext_ACEStepPipeline := fun _ w => (S w, construccion);
  ext_call := fun _ _ w => (S w, llamada);
  ext_makedirs := fun _ w => (S w, directorio)
|}.

(** A generator just built with the default configuration, nothing done yet. *)
Definition estado_nuevo : Estado nat nat := {|
  mundo := 0;
  traza := [];
  yo := GeneradorMusicaEspanol_init None
|}.

(** What [os.makedirs] raises when the directory may not be created. *)
Definition error_permiso : exc :=
  Exception "[Errno 13] Permission denied: './salidas_espanol'".

(** What the real pipeline hands back: the audio path, then the parameters. *)
Definition respuesta_normal : pyval :=
  PyList [PyStr "./salidas_espanol/output.wav";
          PyDict [("timecosts", PyDict [("diffusion", PyFloat 1.5%float)]);
                  ("actual_seeds", PyList [PyInt 42])]].

(** ** Vocabulary of the further properties *)

(** The outside calls one call of [generar_cancion] can make, in order, on
    a façade whose flag is [inicializado] and whose stored configuration is
    [c]: none; or, with the flag unset, a construction that raised followed
    by the print of its error; or the creation of the output directory,
    followed or not by one call of the pipeline, and preceded by a
    construction exactly when the flag is unset. *)
Definition forma_de_llamada {Handle : Type} (inicializado : bool)
    (c : ConfiguracionGeneracion) (evs : list (evento Handle)) : Prop :=
  evs = [] \/
  (inicializado = false /\
   exists m, evs = [EvConstruir (argumentos_constructor c); EvPrint m]) \/
  (let pre := if inicializado then [] else [EvConstruir (argumentos_constructor c)] in
   evs = (pre ++ [EvMakedirs (directorio_salida c)])%list \/
   exists h a, evs = (pre ++ [EvMakedirs (directorio_salida c); EvInvocar h a])%list).

(** The configuration with another [duracion_segundos]. *)
Definition con_duracion_segundos (x : float) (c : ConfiguracionGeneracion)
  : ConfiguracionGeneracion := {|
  duracion_segundos := x;
  formato_salida := formato_salida c;
  pasos_inferencia := pasos_inferencia c;
  escala_guia := escala_guia c;
  tipo_scheduler := tipo_scheduler c;
  tipo_cfg := tipo_cfg c;
  escala_omega := escala_omega c;
  intervalo_guia := intervalo_guia c;
  decaimiento_guia := decaimiento_guia c;
  escala_guia_minima := escala_guia_minima c;
  usar_erg_tag := usar_erg_tag c;
  usar_erg_letra := usar_erg_letra c;
  usar_erg_difusion := usar_erg_difusion c;
  semillas := semillas c;
  directorio_salida := directorio_salida c;
  ruta_checkpoint := ruta_checkpoint c;
  id_dispositivo := id_dispositivo c;
  usar_bf16 := usar_bf16 c;
  usar_cpu_offload := usar_cpu_offload c;
  usar_torch_compile := usar_torch_compile c
|}.

(** The paths handed to the pipeline as [save_path], call after call. *)
Fixpoint rutas_entregadas {Handle : Type} (t : list (evento Handle)) : list string :=
  match t with
  | [] => []
  | EvInvocar _ a :: t' => save_path a :: rutas_entregadas t'
  | _ :: t' => rutas_entregadas t'
  end.

(** ** demo.py: the command line *)

(** [s * n] *)
Fixpoint repetir (s : string) (n : nat) : string :=
  match n with
  | O => ""
  | S k => s ++ repetir s k
  end.


(** [str(z)] for an int. *)
Definition str_int (z : Z) : string := NilZero.string_of_int (Z.to_int z).

(** [type(v).__name__] *)
Definition py_type_name (v : pyval) : string :=
  match v with
  | PyNone => "NoneType"
  | PyBool _ => "bool"
  | PyInt _ => "int"
  | PyFloat _ => "float"
  | PyStr _ => "str"
  | PyList _ => "list"
  | PyTuple _ => "tuple"
  | PyDict _ => "dict"
  end.

(** The truth value of a Python value. *)
Definition py_truthy (v : pyval) : bool :=
  match v with
  | PyNone => false
  | PyBool b => b
  | PyInt z => negb (z =? 0)%Z
  | PyFloat f => negb (f =? 0)%float
  | PyStr s => PyStr.truthy s
  | PyList l => match l with [] => false | _ => true end
  | PyTuple l => match l with [] => false | _ => true end
  | PyDict d => match d with [] => false | _ => true end
  end.

(** The formatting done by the Python runtime inside the f-strings of
    [generar_musica]: [str(x)] of a float, [format(v, ".2f")] of a value
    (which raises for a value that is not a number) and [str(v)] of a
    value. *)
Record Formato : Type := {
  str_float : float -> string;
  format_2f : pyval -> res string;
  str_valor : pyval -> string
}.

(** The namespace that [argparse] hands to [main]. *)
Record Args : Type := {
  arg_listar_generos : bool;
  arg_listar_plantillas : bool;
  arg_genero : string;
  arg_plantilla : option string;
  arg_duracion : float;
  arg_pasos : Z;
  arg_semilla : option Z;
  arg_salida : string;
  arg_nombre_archivo : option string;
  arg_cpu_offload : bool
}.

(** [ConfiguracionGeneracion(duracion_segundos=.., pasos_inferencia=..,
    directorio_salida=.., usar_cpu_offload=..)]: the other fields keep
    their defaults. *)
Definition ConfiguracionGeneracion_de_args (a : Args) : ConfiguracionGeneracion :=
  let d := ConfiguracionGeneracion_defecto in
  {|
    duracion_segundos := arg_duracion a;
    formato_salida := formato_salida d;
    pasos_inferencia := arg_pasos a;
    escala_guia := escala_guia d;
    tipo_scheduler := tipo_scheduler d;
    tipo_cfg := tipo_cfg d;
    escala_omega := escala_omega d;
    intervalo_guia := intervalo_guia d;
    decaimiento_guia := decaimiento_guia d;
    escala_guia_minima := escala_guia_minima d;
    usar_erg_tag := usar_erg_tag d;
    usar_erg_letra := usar_erg_letra d;
    usar_erg_difusion := usar_erg_difusion d;
    semillas := semillas d;
    directorio_salida := arg_salida a;
    ruta_checkpoint := ruta_checkpoint d;
    id_dispositivo := id_dispositivo d;
    usar_bf16 := usar_bf16 d;
    usar_cpu_offload := arg_cpu_offload a;
    usar_torch_compile := usar_torch_compile d
  |}.





Section Demo.

Context {Mundo Handle : Type}.
Variable ext : Exterior Mundo Handle.
Variable fmt : Formato.

Local Notation "x <- c ;; k" := (bind c (fun x => k))
  (at level 61, c at next level, right associativity).
Local Notation "c ;;; k" := (bind c (fun _ => k))
  (at level 61, right associativity).

(** [for x in l: f(x)] *)
Fixpoint para_cada {A : Type} (l : list A) (f : A -> @M Mundo Handle unit)
  : @M Mundo Handle unit :=
  match l with
  | [] => ret tt
  | x :: l' => f x ;;; para_cada l' f
  end.



(** The loop that prints the timings: [tiempos.items()] exists for a
    dictionary only. *)
Definition imprimir_tiempos (tiempos : pyval) : @M Mundo Handle unit :=
  match tiempos with
  | PyDict d =>
      para_cada d
        (fun kv =>
           match format_2f fmt (snd kv) with
           | Ok s => print ("  - " ++ fst kv ++ ": " ++ s ++ "s")
           | Raise e => raise e
           end)
  | v => raise (Exception ("'" ++ py_type_name v ++ "' object has no attribute 'items'"))
  end.

(** [generar_musica(args)].  The generator is local to the function: the
    object of the state on entry is not used, and the state on exit holds
    the local generator. *)
Definition generar_musica (args : Args) : @M Mundo Handle Z :=
  print (PyStr.nl ++ repetir "=" 60) ;;;
  print "GENERADOR DE MÚSICA ACE-STEP EN ESPAÑOL" ;;;
  print (repetir "=" 60 ++ PyStr.nl) ;;;
  let config := ConfiguracionGeneracion_de_args args in
  print "Configuración:" ;;;
  print ("  - Género: " ++ arg_genero args) ;;;
  print ("  - Duración: " ++ str_float fmt (arg_duracion args) ++ " segundos") ;;;
  print ("  - Pasos de inferencia: " ++ str_int (arg_pasos args)) ;;;
  print ("  - Directorio de salida: " ++ arg_salida args) ;;;
  print ("  - CPU Offload: " ++ (if arg_cpu_offload args then "Sí" else "No")) ;;;
  match arg_semilla args with
  | Some z => if (z =? 0)%Z then ret tt else print ("  - Semilla: " ++ str_int z)
  | None => ret tt
  end ;;;
  print (PyStr.nl ++ "Iniciando generación..." ++ PyStr.nl) ;;;
  set_self (GeneradorMusicaEspanol_init (Some config)) ;;;
  letra <- match arg_plantilla args with
           | Some n =>
               if PyStr.truthy n && dict_contains PLANTILLAS_LETRAS n then
                 l <- getitem PLANTILLAS_LETRAS n ;;
                 print ("Usando plantilla: " ++ n) ;;;
                 ret l
               else
                 l <- getitem PLANTILLAS_LETRAS "amor" ;;
                 print "Usando plantilla por defecto: amor" ;;;
                 ret l
           | None =>
               l <- getitem PLANTILLAS_LETRAS "amor" ;;
               print "Usando plantilla por defecto: amor" ;;;
               ret l
           end ;;
  resultado <- generar_cancion ext (arg_genero args) (Some letra) (arg_duracion args)
                 (arg_semilla args) (arg_nombre_archivo args) ;;
  print (PyStr.nl ++ repetir "-" 60) ;;;
  (if exitoso resultado then
     print "¡GENERACIÓN EXITOSA!" ;;;
     print (PyStr.nl ++ "Archivo generado: " ++
            match ruta_audio resultado with Some r => r | None => "None" end) ;;;
     (if py_truthy (tiempos resultado) then
        print (PyStr.nl ++ "Tiempos de ejecución:") ;;;
        imprimir_tiempos (tiempos resultado)
      else ret tt) ;;;
     (if py_truthy (semillas_usadas resultado) then
        print (PyStr.nl ++ "Semillas usadas: " ++
               str_valor fmt (semillas_usadas resultado))
      else ret tt)
   else
     print "ERROR EN LA GENERACIÓN" ;;;
     print (PyStr.nl ++ "Mensaje: " ++ mensaje resultado)) ;;;
  print (PyStr.nl ++ repetir "=" 60 ++ PyStr.nl) ;;;
  ret (if exitoso resultado then 0%Z else 1%Z).


End Demo.

(** *** Vocabulary for the command line *)

(** The event is a print. *)
Definition es_print {Handle : Type} (ev : evento Handle) : Prop :=
  match ev with EvPrint _ => True | _ => False end.

(** The lyrics [generar_musica] works with: the template named by
    [--plantilla] when there is one of that name, the template "amor"
    otherwise. *)
Definition letra_de_args (a : Args) : string :=
  match arg_plantilla a with
  | Some n =>
      match dict_lookup PLANTILLAS_LETRAS n with
      | Some l => l
      | None => plantilla_amor
      end
  | None => plantilla_amor
  end.

(** A formatting of the runtime used in examples: one fixed text per kind
    of value; [format(v, ".2f")] raises for what is not a number. *)
Definition formato_fijo : Formato := {|
  str_float := fun _ => "60.0";
  format_2f := fun v =>
    match v with
    | PyFloat _ | PyInt _ | PyBool _ => Ok "1.50"
    | _ => Raise (Exception "unsupported format string")
    end;
  str_valor := fun _ => "[42]"
|}.

(** The arguments of [python demo.py] without options. *)
Definition args_por_defecto : Args := {|
  arg_listar_generos := false;
  arg_listar_plantillas := false;
  arg_genero := "pop_latino";
  arg_plantilla := None;
  arg_duracion := 60.0%float;
  arg_pasos := 60;
  arg_semilla := None;
  arg_salida := "./salidas_espanol";
  arg_nombre_archivo := None;
  arg_cpu_offload := false
|}.


Section Informe.

Context {Mundo Handle : Type}.
Variable fmt : Formato.

Local Notation "c ;;; k" := (bind c (fun _ => k))
  (at level 61, right associativity).

(** The end of [generar_musica], from the print of the dashes on: the
    report on the result and the exit code. *)
Definition informe (resultado : ResultadoGeneracion) : @M Mundo Handle Z :=
  print (PyStr.nl ++ repetir "-" 60) ;;;
  (if exitoso resultado then
     print "¡GENERACIÓN EXITOSA!" ;;;
     print (PyStr.nl ++ "Archivo generado: " ++
            match ruta_audio resultado with Some r => r | None => "None" end) ;;;
     (if py_truthy (tiempos resultado) then
        print (PyStr.nl ++ "Tiempos de ejecución:") ;;;
        imprimir_tiempos fmt (tiempos resultado)
      else ret tt) ;;;
     (if py_truthy (semillas_usadas resultado) then
        print (PyStr.nl ++ "Semillas usadas: " ++
               str_valor fmt (semillas_usadas resultado))
      else ret tt)
   else
     print "ERROR EN LA GENERACIÓN" ;;;
     print (PyStr.nl ++ "Mensaje: " ++ mensaje resultado)) ;;;
  print (PyStr.nl ++ repetir "=" 60 ++ PyStr.nl) ;;;
  ret (if exitoso resultado then 0%Z else 1%Z).

(** The computation only prints: it leaves the world and the object as
    they are, adds prints to the trace, and what it returns or raises
    satisfies [Q]. *)
Definition imprime {A : Type} (c : @M Mundo Handle A) (Q : res A -> Prop) : Prop :=
  forall st,
    exists evs r,
      c st = ({| mundo := mundo st; traza := (traza st ++ evs)%list; yo := yo st |}, r) /\
      Forall es_print evs /\ Q r.

End Informe.

(** A generator with the default configuration whose pipeline is
    initialised, in a world where nothing happened yet. *)
Definition estado_listo : Estado nat nat := {|
  mundo := 0;
  traza := [];
  yo := {| config := ConfiguracionGeneracion_defecto;
           _pipeline := Some 7;
           _inicializado := true |}
|}.

(** * Properties *)

(** ** Facts about the string operations *)

Lemma append_assoc_s (a b c : string) : (a ++ b) ++ c = a ++ (b ++ c).
Proof. induction a as [|x a IH]; simpl; [reflexivity|now rewrite IH]. Qed.

Lemma append_nil_r (a : string) : a ++ "" = a.
Proof. induction a as [|x a IH]; simpl; [reflexivity|now rewrite IH]. Qed.

Lemma startswith_app (p s : string) : PyStr.startswith p (p ++ s) = true.
Proof.
  induction p as [|a p IH]; simpl; [reflexivity|].
  now rewrite Ascii.eqb_refl, IH.
Qed.

Lemma startswith_iff (p s : string) :
  PyStr.startswith p s = true <-> exists b, s = p ++ b.
Proof.
  split.
  - revert s; induction p as [|a p IH]; intros s H.
    + now exists s.
    + destruct s as [|c s]; simpl in H; [discriminate|].
      apply andb_prop in H as [Hc Hs].
      apply Ascii.eqb_eq in Hc; subst c.
      destruct (IH _ Hs) as [b ->]. now exists b.
  - intros [b ->]. apply startswith_app.
Qed.

Lemma isin_here (p s : string) :
  PyStr.startswith p s = true -> PyStr.isin p s = true.
Proof. intros H; destruct s; simpl in *; now rewrite H. Qed.

Lemma isin_app_r (p a s : string) :
  PyStr.isin p s = true -> PyStr.isin p (a ++ s) = true.
Proof.
  intros H; induction a as [|c a IH]; simpl; [exact H|].
  fold (String.append a s). rewrite IH. apply orb_true_r.
Qed.

Lemma isin_iff (p s : string) :
  PyStr.isin p s = true <-> exists a b, s = a ++ p ++ b.
Proof.
  split.
  - induction s as [|c s IH]; simpl; intros H.
    + rewrite orb_false_r in H. apply startswith_iff in H as [b Hb].
      now exists "", b.
    + apply orb_prop in H as [H|H].
      * apply startswith_iff in H as [b Hb]. now exists "", b.
      * destruct (IH H) as (a & b & ->). now exists (String c a), b.
  - intros (a & b & ->). apply isin_app_r, isin_here, startswith_app.
Qed.

Lemma lower_app (a b : string) :
  PyStr.lower (a ++ b) = PyStr.lower a ++ PyStr.lower b.
Proof. induction a as [|c a IH]; simpl; [reflexivity|now rewrite IH]. Qed.

Lemma lower_eq_app (t a b : string) :
  PyStr.lower t = a ++ b ->
  exists t1 t2, t = t1 ++ t2 /\ PyStr.lower t1 = a /\ PyStr.lower t2 = b.
Proof.
  revert t; induction a as [|c a IH]; intros t H.
  - now exists "", t.
  - destruct t as [|d t]; simpl in H; [discriminate|].
    injection H as Hc Ht.
    destruct (IH _ Ht) as (t1 & t2 & -> & H1 & H2).
    exists (String d t1), t2. simpl. now rewrite Hc, H1.
Qed.

Lemma isin_lower_iff (marca texto : string) :
  PyStr.isin marca (PyStr.lower texto) = true <-> aparece_sin_caja marca texto.
Proof.
  unfold aparece_sin_caja. rewrite isin_iff. split.
  - intros (a & b & H).
    destruct (lower_eq_app _ _ _ H) as (t1 & t23 & -> & H1 & H23).
    destruct (lower_eq_app _ _ _ H23) as (t2 & t3 & -> & H2 & H3).
    now exists t1, t2, t3.
  - intros (pre & mid & post & -> & <-).
    exists (PyStr.lower pre), (PyStr.lower post). now rewrite !lower_app.
Qed.

(** [split("\n")] loses nothing: joining the lines with a line feed gives
    the text back. *)
Lemma split_lines_aux_nonempty (s cur : string) : PyStr.split_lines_aux s cur <> [].
Proof.
  revert cur; induction s as [|c s IH]; intros cur; simpl; [discriminate|].
  destruct (Ascii.eqb c PyStr.LF); [discriminate|apply IH].
Qed.

Lemma join_cons (sep x : string) (rest : list string) :
  rest <> [] -> PyStr.join sep (x :: rest) = x ++ sep ++ PyStr.join sep rest.
Proof. destruct rest; [congruence|reflexivity]. Qed.

Lemma join_split_lines_aux (s cur : string) :
  PyStr.join PyStr.nl (PyStr.split_lines_aux s cur) = cur ++ s.
Proof.
  revert cur; induction s as [|c s IH]; intros cur; simpl.
  - now rewrite append_nil_r.
  - destruct (Ascii.eqb c PyStr.LF) eqn:E.
    + apply Ascii.eqb_eq in E; subst c.
      rewrite join_cons by apply split_lines_aux_nonempty.
      now rewrite IH.
    + rewrite IH, append_assoc_s. reflexivity.
Qed.

Lemma join_split_lines (s : string) : PyStr.join PyStr.nl (PyStr.split_lines s) = s.
Proof. apply join_split_lines_aux. Qed.

Lemma truthy_false_iff (s : string) : PyStr.truthy s = false <-> s = "".
Proof. destruct s; simpl; split; congruence. Qed.

(** *** The operations on small inputs *)

Example split_lines_ejemplo :
  PyStr.split_lines ("a" ++ PyStr.nl ++ PyStr.nl ++ " b ") = ["a"; ""; " b "].
Proof. reflexivity. Qed.

Example strip_ejemplo : PyStr.strip ("  [Verse] x " ++ PyStr.nl) = "[Verse] x".
Proof. reflexivity. Qed.

Example lower_ejemplo : PyStr.lower "[CHORUS] Ñandú" = "[chorus] Ñandú".
Proof. reflexivity. Qed.

Example count_ejemplo : PyStr.count "aa" "aaaaa" = 2.
Proof. reflexivity. Qed.

Example os_path_join_ejemplos :
  os_path_join "./salidas_espanol" "x.wav" = "./salidas_espanol/x.wav" /\
  os_path_join "out/" "x.wav" = "out/x.wav" /\
  os_path_join "out" "/tmp/x.wav" = "/tmp/x.wav" /\
  os_path_join "" "x.wav" = "x.wav".
Proof. repeat split. Qed.

(** *** Stripping and whitespace-only texts *)

Lemma lstrip_eq (s : string) :
  PyStr.lstrip s =
  match s with
  | "" => ""
  | String a r =>
      if PyStr.space1 a then PyStr.lstrip r
      else
        match r with
        | String b r' =>
            if PyStr.space2 a b then PyStr.lstrip r'
            else
              match r' with
              | String c r'' => if PyStr.space3 a b c then PyStr.lstrip r'' else s
              | "" => s
              end
        | "" => s
        end
  end.
Proof. destruct s; reflexivity. Qed.

Lemma space2_no_space1 (a b : ascii) :
  PyStr.space2 a b = true -> PyStr.space1 a = false.
Proof.
  unfold PyStr.space2, PyStr.space1. intros H.
  apply andb_prop in H as [H _]. apply Nat.eqb_eq in H. now rewrite H.
Qed.

Lemma space3_no_space1 (a b c : ascii) :
  PyStr.space3 a b c = true -> PyStr.space1 a = false /\ PyStr.space2 a b = false.
Proof.
  unfold PyStr.space3, PyStr.space2, PyStr.space1. cbv zeta. intros H.
  repeat (apply orb_prop in H as [H|H]);
    apply andb_prop in H as [H _]; apply andb_prop in H as [H _];
    apply Nat.eqb_eq in H; now rewrite H.
Qed.

Lemma lstrip_solo_espacios (s : string) : solo_espacios s -> PyStr.lstrip s = "".
Proof.
  induction 1 as [|e s He Hs IH]; [reflexivity|].
  destruct He as [a Ha|a b Hab|a b c Habc]; cbn [String.append]; rewrite lstrip_eq.
  - now rewrite Ha.
  - now rewrite (space2_no_space1 a b Hab), Hab.
  - destruct (space3_no_space1 a b c Habc) as [H1 H2]. now rewrite H1, H2, Habc.
Qed.

Lemma lstrip_por_longitud (n : nat) (s : string) :
  String.length s <= n ->
  (PyStr.lstrip s = "" -> solo_espacios s) /\
  PyStr.lstrip (PyStr.lstrip s) = PyStr.lstrip s.
Proof.
  revert s; induction n as [|n IH]; intros s Hn.
  - destruct s; [|simpl in Hn; lia]. split; [constructor|reflexivity].
  - destruct s as [|a r]; [split; [constructor|reflexivity]|].
    simpl in Hn. rewrite (lstrip_eq (String a r)).
    destruct (PyStr.space1 a) eqn:H1.
    { destruct (IH r ltac:(lia)) as [Hs Hi]. split; [|exact Hi].
      intros H. apply (solo_mas (String a "") r); [now constructor|auto]. }
    destruct r as [|b r'].
    { split; [discriminate|]. rewrite lstrip_eq. now rewrite H1. }
    simpl in Hn. destruct (PyStr.space2 a b) eqn:H2.
    { destruct (IH r' ltac:(lia)) as [Hs Hi]. split; [|exact Hi].
      intros H. apply (solo_mas (String a (String b "")) r'); [now constructor|auto]. }
    destruct r' as [|c r''].
    { split; [discriminate|]. rewrite lstrip_eq. now rewrite H1, H2. }
    simpl in Hn. destruct (PyStr.space3 a b c) eqn:H3.
    { destruct (IH r'' ltac:(lia)) as [Hs Hi]. split; [|exact Hi].
      intros H.
      apply (solo_mas (String a (String b (String c ""))) r''); [now constructor|auto]. }
    split; [discriminate|]. rewrite lstrip_eq. now rewrite H1, H2, H3.
Qed.

Lemma lstrip_empty_iff (s : string) : PyStr.lstrip s = "" <-> solo_espacios s.
Proof.
  split; [|apply lstrip_solo_espacios].
  apply (lstrip_por_longitud (String.length s) s). lia.
Qed.

Lemma lstrip_idempotente (s : string) : PyStr.lstrip (PyStr.lstrip s) = PyStr.lstrip s.
Proof. apply (lstrip_por_longitud (String.length s) s). lia. Qed.

Lemma rstrip_empty_iff (s : string) : PyStr.rstrip s = "" <-> PyStr.lstrip s = "".
Proof.
  destruct s as [|a r]; [split; reflexivity|].
  cbn [PyStr.rstrip]. unfold PyStr.isblank.
  destruct (PyStr.lstrip (String a r)); split; congruence.
Qed.

(** [strip] leaves nothing exactly of the whitespace-only texts. *)
Lemma strip_empty_iff (s : string) : PyStr.strip s = "" <-> solo_espacios s.
Proof.
  unfold PyStr.strip. rewrite rstrip_empty_iff, lstrip_idempotente.
  apply lstrip_empty_iff.
Qed.

(** The first test of [validar_letra] holds exactly for the texts that are
    empty or whitespace only. *)
Lemma prueba_vacia_iff (letra : string) :
  negb (PyStr.truthy letra) || negb (PyStr.truthy (PyStr.strip letra)) = true
  <-> solo_espacios letra.
Proof.
  rewrite <- strip_empty_iff. destruct letra as [|c r].
  - simpl. split; reflexivity.
  - change (PyStr.truthy (String c r)) with true. simpl negb at 1. rewrite orb_false_l.
    rewrite negb_true_iff. apply truthy_false_iff.
Qed.

Lemma tiene_seccion_iff (letra : string) :
  existsb (fun seccion => PyStr.isin seccion (PyStr.lower letra)) secciones_validas = true
  <-> exists marca, In marca secciones_validas /\ aparece_sin_caja marca letra.
Proof.
  rewrite existsb_exists. split; intros (m & Hin & H); exists m; split; trivial;
    now apply isin_lower_iff.
Qed.

Lemma length_lineas_de_texto (letra : string) :
  List.length (lineas_de_texto letra) = List.length (lineas_restantes letra).
Proof.
  unfold lineas_de_texto, lineas_restantes. rewrite length_map.
  f_equal. apply filter_ext. intros l.
  destruct (PyStr.strip l); reflexivity.
Qed.

(** ** The lyric validator *)

(** The four validation examples of the specification and the three
    templates of the catalog. *)
Example validar_letra_ejemplos :
  validar_letra "" = (false, "La letra no puede estar vacía") /\
  validar_letra ("plain text" ++ PyStr.nl ++ "no markers") =
    (false, "La letra debe contener al menos una sección ([verse], [chorus], etc.)") /\
  validar_letra ("[verse]" ++ PyStr.nl ++ "line one" ++ PyStr.nl ++ "line two") =
    (false, "La letra debe contener al menos 4 líneas de texto") /\
  validar_letra ("[chorus]" ++ PyStr.nl ++ "l1" ++ PyStr.nl ++ "l2" ++ PyStr.nl ++ "l3"
                 ++ PyStr.nl ++ "l4") = (true, "") /\
  map (fun kv => fst (validar_letra (snd kv))) PLANTILLAS_LETRAS = [true; true; true].
Proof. repeat split; vm_compute; reflexivity. Qed.

(** C5, as the code has it.  For every text, [validar_letra] answers, in
    this order: a failure whose message mentions emptiness when the text is
    empty or whitespace only; else a failure whose message mentions
    sections when none of the five markers occurs in the text without
    regard to case; else a failure whose message mentions the line count
    when fewer than four lines remain once the lines that are empty or
    whitespace only (empty when stripped) and the lines whose stripped
    form starts with a bracket are dropped; else success with the empty
    message. *)
Theorem validar_letra_casos (texto : string) :
  (solo_espacios texto ->
     exists m, validar_letra texto = (false, m) /\ PyStr.isin "vacía" m = true) /\
  (~ solo_espacios texto ->
     (forall marca, In marca ["[verse]"; "[chorus]"; "[bridge]"; "[intro]"; "[outro]"] ->
                    ~ aparece_sin_caja marca texto) ->
     exists m, validar_letra texto = (false, m) /\ PyStr.isin "sección" m = true) /\
  (~ solo_espacios texto ->
     (exists marca, In marca ["[verse]"; "[chorus]"; "[bridge]"; "[intro]"; "[outro]"] /\
                    aparece_sin_caja marca texto) ->
     List.length (lineas_restantes texto) < 4 ->
     exists m, validar_letra texto = (false, m) /\ PyStr.isin "líneas" m = true) /\
  (~ solo_espacios texto ->
     (exists marca, In marca ["[verse]"; "[chorus]"; "[bridge]"; "[intro]"; "[outro]"] /\
                    aparece_sin_caja marca texto) ->
     4 <= List.length (lineas_restantes texto) ->
     validar_letra texto = (true, "")).
Proof.
  unfold validar_letra.
  destruct (negb (PyStr.truthy texto) || negb (PyStr.truthy (PyStr.strip texto))) eqn:Hv.
  - apply prueba_vacia_iff in Hv.
    repeat split; try (intros Hn; contradiction).
    intros _. eexists; split; reflexivity.
  - assert (Hn : ~ solo_espacios texto).
    { intros H. apply prueba_vacia_iff in H. congruence. }
    destruct (existsb _ secciones_validas) eqn:Hs; cbv zeta.
    + apply tiene_seccion_iff in Hs. rewrite length_lineas_de_texto.
      destruct (Nat.ltb_spec (List.length (lineas_restantes texto)) 4) as [Hl|Hl];
        simpl negb; cbv iota.
      * repeat split; try (intros; contradiction); try (intros; lia).
        -- intros _ Hno. destruct Hs as (m & Hin & Hm). now destruct (Hno m Hin).
        -- intros _ _ _. eexists; split; reflexivity.
      * repeat split; try (intros; contradiction); try (intros; lia); trivial.
        intros _ Hno. destruct Hs as (m & Hin & Hm). now destruct (Hno m Hin).
    + simpl negb; cbv iota.
      assert (Hno : ~ exists marca, In marca secciones_validas /\ aparece_sin_caja marca texto).
      { intros H. apply tiene_seccion_iff in H. congruence. }
      repeat split; try (intros; contradiction).
      intros _ _. eexists; split; reflexivity.
Qed.

(** The last case of C5 at the lyrics "[chorus]", "l1", "l2", "l3", "l4". *)
Lemma validar_letra_casos_witness :
  validar_letra ("[chorus]" ++ PyStr.nl ++ "l1" ++ PyStr.nl ++ "l2" ++ PyStr.nl ++ "l3"
                 ++ PyStr.nl ++ "l4") = (true, "").
Proof.
  apply (proj2 (proj2 (proj2 (validar_letra_casos _)))).
  - intros H. apply strip_empty_iff in H. vm_compute in H. discriminate.
  - exists "[chorus]". split; [simpl; tauto|].
    exists "", "[chorus]", (PyStr.nl ++ "l1" ++ PyStr.nl ++ "l2" ++ PyStr.nl ++ "l3"
                            ++ PyStr.nl ++ "l4").
    split; reflexivity.
  - vm_compute. lia.
Defined.

(** C5, the claim as written fails: when only the lines without any
    character count as empty, the lyrics of a marker, three lines of text
    and a line of three spaces keep four lines and would be accepted, yet
    [validar_letra] drops the line of spaces as well, is left with three
    lines and refuses the lyrics for their line count. *)
Lemma validar_letra_casos_contraejemplo :
  ~ solo_espacios letra_con_linea_en_blanco /\
  aparece_sin_caja "[verse]" letra_con_linea_en_blanco /\
  lineas_restantes_literal letra_con_linea_en_blanco = ["a"; "b"; "c"; "   "] /\
  lineas_restantes letra_con_linea_en_blanco = ["a"; "b"; "c"] /\
  validar_letra letra_con_linea_en_blanco =
    (false, "La letra debe contener al menos 4 líneas de texto").
Proof.
  split; [|split; [|repeat split; vm_compute; reflexivity]].
  - intros H. apply strip_empty_iff in H. vm_compute in H. discriminate.
  - exists "", "[verse]",
      (PyStr.nl ++ "a" ++ PyStr.nl ++ "b" ++ PyStr.nl ++ "c" ++ PyStr.nl ++ "   ").
    split; reflexivity.
Qed.

(** ** The lyric composer *)

Lemma partes_versos_succ (i : nat) (versos : list string) (coro : string) :
  partes_versos (S i) versos coro = map (bloque "[verse]") versos.
Proof.
  revert i; induction versos as [|v resto IH]; intros i; simpl; [reflexivity|].
  now rewrite IH.
Qed.

Lemma partes_letra_cons (v1 : string) (resto : list string) (coro : string)
    (bridge : option string) :
  partes_letra (v1 :: resto) coro bridge =
  (bloque "[verse]" v1 :: bloque "[chorus]" coro :: map (bloque "[verse]") resto ++
   match bridge with
   | Some (String a b) => [bloque "[bridge]" (String a b); bloque "[chorus]" coro]
   | _ => []
   end)%list.
Proof.
  unfold partes_letra. simpl partes_versos. rewrite partes_versos_succ.
  destruct bridge as [[|a b]|]; reflexivity.
Qed.

(** A marker found at the start of a text followed by the character [c]
    lies within the text, or holds [c] itself. *)
Lemma startswith_app_char (p a : string) (c : ascii) (t : string) :
  PyStr.startswith p (a ++ String c t) = true ->
  PyStr.startswith p a = true \/ PyStr.isin (String c "") p = true.
Proof.
  revert a; induction p as [|x p IH]; intros a H; [now left|].
  destruct a as [|y a].
  - right. cbn [String.append PyStr.startswith] in H.
    apply andb_prop in H as [Hx _]. apply Ascii.eqb_eq in Hx; subst x.
    cbn [PyStr.isin PyStr.startswith]. now rewrite Ascii.eqb_refl.
  - change (String y a ++ String c t) with (String y (a ++ String c t)) in H.
    cbn [PyStr.startswith] in H. apply andb_prop in H as [Hx Hs].
    destruct (IH _ Hs) as [Hl|Hr].
    + left. cbn [PyStr.startswith]. now rewrite Hx, Hl.
    + right. cbn [PyStr.isin]. rewrite Hr. apply orb_true_r.
Qed.

(** A text that does not contain the marker, followed by a character the
    marker does not hold, adds no occurrence of the marker: none lies in
    the text, and none can start in it and run over its end. *)
Lemma count_from_sin_marca (p s : string) (c : ascii) (t : string) :
  sin_marca p s -> PyStr.isin (String c "") p = false ->
  PyStr.count_from p (s ++ String c t) 0 = PyStr.count_from p (String c t) 0.
Proof.
  unfold sin_marca. intros Hs Hc. induction s as [|x s IH]; [reflexivity|].
  cbn [PyStr.isin] in Hs. apply orb_false_elim in Hs as [Hx Hs].
  change (String x s ++ String c t) with (String x (s ++ String c t)).
  cbn [PyStr.count_from].
  destruct (PyStr.startswith p (String x (s ++ String c t))) eqn:Hst.
  - change (String x (s ++ String c t)) with (String x s ++ String c t) in Hst.
    apply startswith_app_char in Hst as [H|H]; congruence.
  - now apply IH.
Qed.

Lemma count_sin_marca (p s : string) :
  sin_marca p s -> PyStr.count_from p s 0 = 0.
Proof.
  unfold sin_marca. induction s as [|x s IH]; intros H; [reflexivity|].
  cbn [PyStr.isin] in H. apply orb_false_elim in H as [Hx Hs].
  cbn [PyStr.count_from]. rewrite Hx. now apply IH.
Qed.

Lemma partes_letra_con_bridge (v1 : string) (resto : list string) (coro b : string) :
  b <> "" ->
  partes_letra (v1 :: resto) coro (Some b) =
  (bloque "[verse]" v1 :: bloque "[chorus]" coro :: map (bloque "[verse]") resto ++
   [bloque "[bridge]" b; bloque "[chorus]" coro])%list.
Proof.
  intros Hb. rewrite partes_letra_cons. destruct b; [congruence|reflexivity].
Qed.

Ltac cuenta_literal :=
  repeat (rewrite append_assoc_s);
  cbn [String.append PyStr.count_from PyStr.startswith String.length Nat.sub
       Ascii.eqb Bool.eqb andb PyStr.nl PyStr.LF].

(** Pass over the text [s], which is followed by a line feed. *)
Ltac salta_texto s :=
  rewrite (count_from_sin_marca _ s) by first [assumption | reflexivity].

(** C8, as the code has it.  For a non-empty verse list the text is made of
    one [verse] block per verse in order, a [chorus] block right after the
    first verse only and, when the bridge is a non-empty text, a [bridge]
    block after all the verses followed by one more [chorus] block (an
    empty bridge counts as none), joined by blank lines.  With one verse
    and a non-empty bridge the blocks come in the order verse, chorus,
    bridge, chorus.  When the verse, chorus and bridge texts do not
    themselves contain the marker that is counted, one verse without
    bridge gives exactly one [chorus] marker, and one verse with a
    non-empty bridge gives exactly two [chorus] markers and one [bridge]
    marker. *)
Theorem crear_letra_personalizada_bloques
    (v1 : string) (resto : list string) (coro : string) :
  (forall bridge,
     crear_letra_personalizada (v1 :: resto) coro bridge =
     PyStr.join separador
       (bloque "[verse]" v1 :: bloque "[chorus]" coro :: map (bloque "[verse]") resto ++
        match bridge with
        | Some (String a b) => [bloque "[bridge]" (String a b); bloque "[chorus]" coro]
        | _ => []
        end)%list) /\
  (sin_marca "[chorus]" v1 -> sin_marca "[chorus]" coro ->
     PyStr.count "[chorus]" (crear_letra_personalizada [v1] coro None) = 1) /\
  (forall b, b <> "" ->
     crear_letra_personalizada [v1] coro (Some b) =
       bloque "[verse]" v1 ++ separador ++ bloque "[chorus]" coro ++ separador ++
       bloque "[bridge]" b ++ separador ++ bloque "[chorus]" coro /\
     (sin_marca "[chorus]" v1 -> sin_marca "[chorus]" coro -> sin_marca "[chorus]" b ->
        PyStr.count "[chorus]" (crear_letra_personalizada [v1] coro (Some b)) = 2) /\
     (sin_marca "[bridge]" v1 -> sin_marca "[bridge]" coro -> sin_marca "[bridge]" b ->
        PyStr.count "[bridge]" (crear_letra_personalizada [v1] coro (Some b)) = 1)).
Proof.
  split; [|split].
  - intros bridge. unfold crear_letra_personalizada.
    now rewrite partes_letra_cons.
  - intros Hv Hc. unfold crear_letra_personalizada, PyStr.count.
    rewrite partes_letra_cons. cbn [map app PyStr.join]. unfold bloque.
    cuenta_literal. salta_texto v1. cuenta_literal. now rewrite count_sin_marca.
  - intros b Hb. split; [|split].
    + unfold crear_letra_personalizada. now rewrite partes_letra_con_bridge.
    + intros Hv Hc Hbr. unfold crear_letra_personalizada, PyStr.count.
      rewrite partes_letra_con_bridge by assumption.
      cbn [map app PyStr.join]. unfold bloque, separador.
      cuenta_literal. salta_texto v1. cuenta_literal. salta_texto coro.
      cuenta_literal. salta_texto b. cuenta_literal. now rewrite count_sin_marca.
    + intros Hv Hc Hbr. unfold crear_letra_personalizada, PyStr.count.
      rewrite partes_letra_con_bridge by assumption.
      cbn [map app PyStr.join]. unfold bloque, separador.
      cuenta_literal. salta_texto v1. cuenta_literal. salta_texto coro.
      cuenta_literal. salta_texto b. cuenta_literal. now rewrite count_sin_marca.
Qed.

(** C8, the claim as written fails: a bridge that is supplied but empty
    gets no [bridge] block, and a single verse whose text is itself the
    chorus marker gives two [chorus] markers without any bridge. *)
Lemma crear_letra_personalizada_contraejemplo :
  PyStr.count "[bridge]" (crear_letra_personalizada ["v1"] "c1" (Some "")) = 0 /\
  crear_letra_personalizada ["v1"] "c1" (Some "") =
    crear_letra_personalizada ["v1"] "c1" None /\
  PyStr.count "[chorus]" (crear_letra_personalizada ["[chorus]"] "c1" None) = 2.
Proof. repeat split; vm_compute; reflexivity. Qed.

(** The marker counts of C8 at a verse that holds a marker of its own,
    "[intro] la la", the chorus "c1" and the bridge "b1". *)
Lemma crear_letra_personalizada_bloques_witness :
  PyStr.count "[chorus]" (crear_letra_personalizada ["[intro] la la"] "c1" None) = 1 /\
  PyStr.count "[chorus]"
    (crear_letra_personalizada ["[intro] la la"] "c1" (Some "b1")) = 2 /\
  PyStr.count "[bridge]"
    (crear_letra_personalizada ["[intro] la la"] "c1" (Some "b1")) = 1.
Proof.
  pose proof (crear_letra_personalizada_bloques "[intro] la la" [] "c1") as (_ & H1 & H2).
  destruct (H2 "b1" ltac:(discriminate)) as (_ & H3 & H4).
  split; [|split].
  - apply H1; reflexivity.
  - apply H3; reflexivity.
  - apply H4; reflexivity.
Defined.

(** ** The configuration *)

(** C4, as the code has it.  Constructing the configuration without
    arguments gives the declared defaults: 60.0 s, "wav", 60 steps, guidance
    scale 15.0, scheduler "euler", CFG type "apg", omega scale 10.0,
    guidance interval 0.5, decay 0.0, minimum guidance scale 3.0, the
    three ERG flags set, no seeds, the output directory
    "./salidas_espanol", no checkpoint path, device 0, bf16 set, CPU
    offload and torch compile unset.  The constructor with no keyword
    given is that same record. *)
Theorem ConfiguracionGeneracion_defecto_valores :
  let c := ConfiguracionGeneracion_defecto in
  ConfiguracionGeneracion_kw None None None = c /\
  duracion_segundos c = 60.0%float /\
  formato_salida c = "wav" /\
  pasos_inferencia c = 60%Z /\
  escala_guia c = 15.0%float /\
  tipo_scheduler c = "euler" /\
  tipo_cfg c = "apg" /\
  escala_omega c = 10.0%float /\
  intervalo_guia c = 0.5%float /\
  decaimiento_guia c = 0.0%float /\
  escala_guia_minima c = 3.0%float /\
  usar_erg_tag c = true /\ usar_erg_letra c = true /\ usar_erg_difusion c = true /\
  semillas c = None /\
  directorio_salida c = "./salidas_espanol" /\
  ruta_checkpoint c = None /\
  id_dispositivo c = 0%Z /\
  usar_bf16 c = true /\
  usar_cpu_offload c = false /\
  usar_torch_compile c = false.
Proof. cbv zeta. repeat split. Qed.

(** C4, the claim as written fails: the default output directory is not
    "./output_spanish". *)
Lemma ConfiguracionGeneracion_defecto_contraejemplo :
  directorio_salida ConfiguracionGeneracion_defecto <> "./output_spanish".
Proof. discriminate. Qed.


(** ** The generator façade *)

Section PropiedadesFachada.

Context {Mundo Handle : Type}.
Variable ext : Exterior Mundo Handle.

Lemma inicializar_pipeline_plano (st : Estado Mundo Handle) :
  _inicializar_pipeline ext st = inicializar_plano ext st.
Proof.
  unfold _inicializar_pipeline, inicializar_plano, bind, get_self, try_except,
    ACEStepPipeline, externo, set_self, print, registrar, ret, tras_evento,
    argumentos_constructor.
  destruct (_inicializado (yo st)) eqn:Hi; [reflexivity|].
  destruct (ext_ACEStepPipeline ext _ (mundo st)) as [w [h|e]]; cbn.
  - reflexivity.
  - now rewrite <- app_assoc.
Qed.

Lemma generar_cancion_es_plano (genero : string) (letra : option string)
    (duracion : float) (semilla : option Z) (nombre_archivo : option string)
    (st : Estado Mundo Handle) :
  generar_cancion ext genero letra duracion semilla nombre_archivo st =
  generar_cancion_plano ext genero letra duracion semilla nombre_archivo st.
Proof.
  unfold generar_cancion, generar_cancion_plano, dict_contains.
  destruct (dict_lookup GENEROS_ESPANOL genero) as [p|] eqn:Hg; [|reflexivity].
  cbn [negb].
  assert (Hl : (match letra with
                | Some l => ret l
                | None => getitem PLANTILLAS_LETRAS "amor"
                end) st = (st, Ok (letra_efectiva letra))).
  { destruct letra; reflexivity. }
  unfold bind at 1. rewrite Hl.
  destruct (validar_letra (letra_efectiva letra)) as [[|] error]; [|reflexivity].
  cbn [negb]. fold (fuera_de_rango duracion).
  destruct (fuera_de_rango duracion); [reflexivity|].
  unfold bind at 1. rewrite inicializar_pipeline_plano.
  destruct (inicializar_plano ext st) as [st1 [[|]|e]]; try reflexivity.
  cbn [negb]. unfold generar_plano_listo, bind, get_self, os_makedirs, externo,
    try_except, getitem, llamar, ret, raise, tras_evento.
  destruct (ext_makedirs ext _ (mundo st1)) as [w [[]|e]]; [|reflexivity].
  rewrite Hg. cbn [mundo traza yo].
  destruct (_pipeline (yo st1)) as [h|]; [|reflexivity].
  unfold externo, argumentos_llamada, ruta_de_salida, semillas_resueltas.
  cbn [mundo traza yo].
  destruct (ext_call ext h _ w) as [w' [v|e]]; reflexivity.
Qed.

Lemma dict_lookup_None {A : Type} (d : list (string * A)) (k : string) :
  ~ In k (dict_keys d) -> dict_lookup d k = None.
Proof.
  induction d as [|[k' v] d IH]; intros H; simpl; [reflexivity|].
  destruct (String.eqb_spec k k') as [->|Hne].
  - exfalso. apply H. now left.
  - apply IH. intros Hin. apply H. now right.
Qed.

Lemma dict_lookup_Some {A : Type} (d : list (string * A)) (k : string) :
  In k (dict_keys d) -> exists v, dict_lookup d k = Some v.
Proof.
  induction d as [|[k' v] d IH]; intros H; simpl in *; [contradiction|].
  destruct (String.eqb_spec k k') as [->|Hne]; [now exists v|].
  apply IH. destruct H as [H|H]; [congruence|exact H].
Qed.

(** C7.  For a genre that is none of the twelve keys of the catalog the
    call returns at once, in the state it was given (no world change, no
    call made outside, the generator untouched), a failed result without
    path whose message quotes the genre, says it is not valid and lists
    the twelve valid genres. *)
Theorem generar_cancion_genero_invalido
    (genero : string) (letra : option string) (duracion : float)
    (semilla : option Z) (nombre_archivo : option string) (st : Estado Mundo Handle) :
  ~ In genero ["pop_latino"; "reggaeton"; "balada"; "rock_espanol"; "cumbia"; "salsa";
               "bachata"; "flamenco"; "mariachi"; "tango"; "urbano"; "folclore"] ->
  exists r,
    generar_cancion ext genero letra duracion semilla nombre_archivo st = (st, Ok r) /\
    exitoso r = false /\
    ruta_audio r = None /\
    PyStr.isin ("'" ++ genero ++ "'") (mensaje r) = true /\
    PyStr.isin "no válido" (mensaje r) = true /\
    (forall g,
       In g ["pop_latino"; "reggaeton"; "balada"; "rock_espanol"; "cumbia"; "salsa";
             "bachata"; "flamenco"; "mariachi"; "tango"; "urbano"; "folclore"] ->
       PyStr.isin g (mensaje r) = true).
Proof.
  intros Hno. exists (resultado_fallido (mensaje_genero genero)).
  split; [|split; [reflexivity|split; [reflexivity|]]].
  - rewrite generar_cancion_es_plano. unfold generar_cancion_plano.
    now rewrite (dict_lookup_None GENEROS_ESPANOL genero Hno).
  - cbn [mensaje resultado_fallido]. unfold mensaje_genero. split; [|split].
    + apply isin_iff. exists "Género ".
      exists (" no válido. Géneros disponibles: " ++
              PyStr.join ", " (dict_keys GENEROS_ESPANOL)).
      rewrite !append_assoc_s. reflexivity.
    + apply (isin_app_r _ "Género '"), isin_app_r. vm_compute. reflexivity.
    + intros g Hg. apply (isin_app_r _ "Género '"), isin_app_r.
      cbn [In] in Hg.
      repeat (destruct Hg as [<-|Hg]; [vm_compute; reflexivity|]).
      contradiction.
Qed.

(** What the extraction makes of a pipeline answer: a success exactly for a
    non-empty list. *)
Lemma extraer_resultado_casos (v : pyval) :
  (exists primero resto,
     v = PyList (primero :: resto) /\
     exitoso (extraer_resultado v) = true /\
     mensaje (extraer_resultado v) = mensaje_exito /\
     ruta_audio (extraer_resultado v) =
       match primero with PyStr p => Some p | _ => None end) \/
  extraer_resultado v = resultado_fallido "El modelo no retornó un resultado válido".
Proof.
  destruct v as [| | | | |[|x l]| |]; try (right; reflexivity).
  left. exists x, l. repeat split.
Qed.

(** The results of the part of [generar_cancion] that follows the
    initialisation. *)
Lemma generar_plano_listo_casos (p letra : string) (duracion : float)
    (semilla : option Z) (nombre_archivo : option string)
    (st1 st' : Estado Mundo Handle) (r : ResultadoGeneracion) :
  generar_plano_listo ext p letra duracion semilla nombre_archivo st1 = (st', Ok r) ->
  (exists t, r = resultado_fallido ("Error durante la generación: " ++ t)) \/
  (exists h a w v, ext_call ext h a w = (mundo st', Ok v) /\ r = extraer_resultado v).
Proof.
  unfold generar_plano_listo.
  destruct (ext_makedirs ext _ (mundo st1)) as [w [[]|e]]; [|discriminate].
  destruct (_pipeline (yo st1)) as [h|].
  - destruct (ext_call ext h _ w) as [w' [v|e]] eqn:Hc; intros H;
      injection H as <- <-.
    + right. exists h. eexists. exists w, v. split; [exact Hc|reflexivity].
    + left. now exists (exc_str e).
  - intros H. injection H as <- <-. left. now eexists.
Qed.

(** A call that passes the genre and lyric checks fails on a duration out
    of range, without touching the state. *)
Lemma generar_cancion_fuera_de_rango
    (genero : string) (letra : option string) (d : float)
    (semilla : option Z) (nombre_archivo : option string) (st : Estado Mundo Handle) :
  In genero (dict_keys GENEROS_ESPANOL) ->
  fst (validar_letra (letra_efectiva letra)) = true ->
  fuera_de_rango d = true ->
  generar_cancion ext genero letra d semilla nombre_archivo st =
    (st, Ok (resultado_fallido mensaje_duracion)).
Proof.
  intros Hg Hl Hd. destruct (dict_lookup_Some _ _ Hg) as [p Hp].
  rewrite generar_cancion_es_plano. unfold generar_cancion_plano.
  rewrite Hp. destruct (validar_letra (letra_efectiva letra)) as [[|] error];
    [|discriminate]. now rewrite Hd.
Qed.

(** Such a call returns the duration message for no duration in range. *)
Lemma generar_cancion_en_rango
    (genero : string) (letra : option string) (d : float)
    (semilla : option Z) (nombre_archivo : option string)
    (st st' : Estado Mundo Handle) (r : ResultadoGeneracion) :
  In genero (dict_keys GENEROS_ESPANOL) ->
  fst (validar_letra (letra_efectiva letra)) = true ->
  generar_cancion ext genero letra d semilla nombre_archivo st = (st', Ok r) ->
  mensaje r = mensaje_duracion ->
  fuera_de_rango d = true.
Proof.
  intros Hg Hl Hr Hm. destruct (dict_lookup_Some _ _ Hg) as [p Hp].
  destruct (fuera_de_rango d) eqn:Hd; [reflexivity|exfalso].
  rewrite generar_cancion_es_plano in Hr. unfold generar_cancion_plano in Hr.
  rewrite Hp, Hd in Hr.
  destruct (validar_letra (letra_efectiva letra)) as [[|] error]; [|discriminate].
  unfold inicializar_plano in Hr.
  assert (Hlisto : forall st1, generar_plano_listo ext p (letra_efectiva letra) d
            semilla nombre_archivo st1 = (st', Ok r) -> False).
  { intros st1 H. apply generar_plano_listo_casos in H as [[t ->]|(h & a & w & v & _ & ->)].
    - discriminate.
    - destruct (extraer_resultado_casos v) as [(x & l & _ & _ & Hx & _)|Hx];
        rewrite Hx in Hm; discriminate. }
  destruct (_inicializado (yo st)); [now apply Hlisto in Hr|].
  destruct (ext_ACEStepPipeline ext _ (mundo st)) as [w [h|e]].
  - now apply Hlisto in Hr.
  - injection Hr as <- <-. discriminate.
Qed.

(** C6.  With a genre of the catalog and lyrics that pass the validator
    (passed, or the default template), the call fails on the duration
    exactly when [d < 10] or [d > 240]: it then returns, in the state it
    was given, the failed result whose message refers to the duration,
    and for every other duration what it returns is not that failure; in
    particular neither 10 nor 240 is refused. *)
Theorem generar_cancion_duracion
    (genero : string) (letra : option string) (d : float)
    (semilla : option Z) (nombre_archivo : option string) (st : Estado Mundo Handle) :
  In genero (dict_keys GENEROS_ESPANOL) ->
  fst (validar_letra (letra_efectiva letra)) = true ->
  (((d <? 10)%float = true \/ (240 <? d)%float = true) <->
   exists st' r,
     generar_cancion ext genero letra d semilla nombre_archivo st = (st', Ok r) /\
     exitoso r = false /\ mensaje r = mensaje_duracion) /\
  (((d <? 10)%float = true \/ (240 <? d)%float = true) ->
   generar_cancion ext genero letra d semilla nombre_archivo st =
     (st, Ok (resultado_fallido mensaje_duracion))) /\
  PyStr.isin "duración" mensaje_duracion = true /\
  (forall st' r,
     generar_cancion ext genero letra 10%float semilla nombre_archivo st = (st', Ok r) ->
     mensaje r <> mensaje_duracion) /\
  (forall st' r,
     generar_cancion ext genero letra 240%float semilla nombre_archivo st = (st', Ok r) ->
     mensaje r <> mensaje_duracion).
Proof.
  intros Hg Hl.
  assert (Hfuera : ((d <? 10)%float = true \/ (240 <? d)%float = true) <->
                   fuera_de_rango d = true).
  { unfold fuera_de_rango. now rewrite orb_true_iff. }
  split; [|split; [|split; [reflexivity|split]]].
  - rewrite Hfuera. split.
    + intros Hd. exists st, (resultado_fallido mensaje_duracion).
      now rewrite generar_cancion_fuera_de_rango.
    + intros (st' & r & Hr & _ & Hm). eapply generar_cancion_en_rango; eassumption.
  - intros Hd. now apply generar_cancion_fuera_de_rango, Hfuera.
  - intros st' r Hr Hm.
    pose proof (generar_cancion_en_rango _ _ _ _ _ _ _ _ Hg Hl Hr Hm). discriminate.
  - intros st' r Hr Hm.
    pose proof (generar_cancion_en_rango _ _ _ _ _ _ _ _ Hg Hl Hr Hm). discriminate.
Qed.

(** C2, as the code has it.  Every result that [generar_cancion] returns
    has no path when it is a failure; when it is a success its message is
    the non-empty completion message, the pipeline returned a non-empty
    list, and the path is the first element of that list when this is a
    string and absent otherwise. *)
Theorem generar_cancion_invariante
    (genero : string) (letra : option string) (duracion : float)
    (semilla : option Z) (nombre_archivo : option string)
    (st st' : Estado Mundo Handle) (r : ResultadoGeneracion) :
  generar_cancion ext genero letra duracion semilla nombre_archivo st = (st', Ok r) ->
  (exitoso r = false -> ruta_audio r = None) /\
  (exitoso r = true ->
     mensaje r = mensaje_exito /\ mensaje r <> "" /\
     exists h a w primero resto,
       ext_call ext h a w = (mundo st', Ok (PyList (primero :: resto))) /\
       ruta_audio r = match primero with PyStr p => Some p | _ => None end).
Proof.
  rewrite generar_cancion_es_plano. unfold generar_cancion_plano. intros H.
  assert (Hf : forall (m : string) (r0 : ResultadoGeneracion) (w0 : Mundo),
     r0 = resultado_fallido m ->
     (exitoso r0 = false -> ruta_audio r0 = None) /\
     (exitoso r0 = true ->
        mensaje r0 = mensaje_exito /\ mensaje r0 <> "" /\
        exists h a w primero resto,
          ext_call ext h a w = (w0, Ok (PyList (primero :: resto))) /\
          ruta_audio r0 = match primero with PyStr p => Some p | _ => None end)).
  { intros m r0 w0 ->. split; [reflexivity|discriminate]. }
  destruct (dict_lookup GENEROS_ESPANOL genero) as [p|];
    [|injection H as <- <-; now eapply Hf].
  destruct (validar_letra (letra_efectiva letra)) as [[|] error];
    [|injection H as <- <-; now eapply Hf].
  destruct (fuera_de_rango duracion); [injection H as <- <-; now eapply Hf|].
  destruct (inicializar_plano ext st) as [st1 [[|]|e]];
    [|injection H as <- <-; now eapply Hf|discriminate].
  apply generar_plano_listo_casos in H as [[t ->]|(h & a & w & v & Hc & ->)];
    [now eapply Hf|].
  destruct (extraer_resultado_casos v) as [(x & l & -> & He & Hm & Hr)|Hx];
    [|eapply Hf; exact Hx].
  split; [rewrite He; discriminate|]. intros _.
  split; [exact Hm|]. split; [rewrite Hm; discriminate|].
  now exists h, a, w, x, l.
Qed.

(** *** The pipeline state *)

Lemma generar_plano_listo_traza (p letra : string) (duracion : float)
    (semilla : option Z) (nombre_archivo : option string) (st1 : Estado Mundo Handle) :
  let st' := fst (generar_plano_listo ext p letra duracion semilla nombre_archivo st1) in
  yo st' = yo st1 /\
  exists evs, traza st' = (traza st1 ++ evs)%list /\
              Forall (sin_reinicio (_pipeline (yo st1))) evs.
Proof.
  unfold generar_plano_listo.
  destruct (ext_makedirs ext _ (mundo st1)) as [w [[]|e]]; cbn.
  - destruct (_pipeline (yo st1)) as [h|] eqn:Hp.
    + destruct (ext_call ext h _ w) as [w' [v|e]]; cbn; (split; [reflexivity|]);
        eexists; (split; [now rewrite <- app_assoc|]);
        repeat constructor.
    + cbn. split; [reflexivity|]. eexists; split; [reflexivity|]. repeat constructor.
  - split; [reflexivity|]. eexists; split; [reflexivity|]. repeat constructor.
Qed.

(** A call on an initialised façade leaves the façade as it is, constructs
    nothing and calls no other handle than its own. *)
Lemma generar_cancion_listo (genero : string) (letra : option string)
    (duracion : float) (semilla : option Z) (nombre_archivo : option string)
    (st : Estado Mundo Handle) :
  _inicializado (yo st) = true ->
  let st' := fst (generar_cancion ext genero letra duracion semilla nombre_archivo st) in
  yo st' = yo st /\
  exists evs, traza st' = (traza st ++ evs)%list /\
              Forall (sin_reinicio (_pipeline (yo st))) evs.
Proof.
  intros Hi. rewrite generar_cancion_es_plano. unfold generar_cancion_plano.
  assert (Hnada : yo st = yo st /\
                  exists evs, traza st = (traza st ++ evs)%list /\
                              Forall (sin_reinicio (_pipeline (yo st))) evs).
  { split; [reflexivity|]. exists []. now rewrite app_nil_r. }
  destruct (dict_lookup GENEROS_ESPANOL genero) as [p|]; [|exact Hnada].
  destruct (validar_letra (letra_efectiva letra)) as [[|] error]; [|exact Hnada].
  destruct (fuera_de_rango duracion); [exact Hnada|].
  unfold inicializar_plano. rewrite Hi.
  apply generar_plano_listo_traza.
Qed.

Lemma generar_demo_listo (genero : string) (st : Estado Mundo Handle) :
  _inicializado (yo st) = true ->
  let st' := fst (generar_demo ext genero st) in
  yo st' = yo st /\
  exists evs, traza st' = (traza st ++ evs)%list /\
              Forall (sin_reinicio (_pipeline (yo st))) evs.
Proof.
  intros Hi. unfold generar_demo.
  match goal with
  | |- context [generar_cancion ext ?g ?l ?d ?s ?n ?st0] =>
      pose proof (generar_cancion_listo g l d s n st0 Hi) as H;
      destruct (generar_cancion ext g l d s n st0) as [st1 r]
  end.
  cbn in *. destruct H as [_ H]. split; [reflexivity|exact H].
Qed.

(** Once initialised, always initialised: over any sequence of calls the
    façade keeps its handle and its flag, nothing is constructed, and the
    pipeline calls all go to that handle. *)
Lemma ejecutar_listo (cs : list llamada) (st : Estado Mundo Handle) :
  _inicializado (yo st) = true ->
  yo (ejecutar ext cs st) = yo st /\
  exists evs, traza (ejecutar ext cs st) = (traza st ++ evs)%list /\
              Forall (sin_reinicio (_pipeline (yo st))) evs.
Proof.
  revert st; induction cs as [|c cs IH]; intros st Hi; cbn [ejecutar].
  - split; [reflexivity|]. exists []. now rewrite app_nil_r.
  - assert (H1 : yo (ejecutar1 ext c st) = yo st /\
                 exists evs, traza (ejecutar1 ext c st) = (traza st ++ evs)%list /\
                             Forall (sin_reinicio (_pipeline (yo st))) evs).
    { destruct c; [now apply generar_cancion_listo|now apply generar_demo_listo]. }
    destruct H1 as (Hyo & evs1 & Ht1 & Hf1).
    destruct (IH (ejecutar1 ext c st)) as (Hyo2 & evs2 & Ht2 & Hf2).
    { now rewrite Hyo. }
    split; [congruence|].
    exists (evs1 ++ evs2)%list. split.
    + now rewrite Ht2, Ht1, app_assoc.
    + apply Forall_app. split; [exact Hf1|]. now rewrite <- Hyo.
Qed.

(** The path of a call whose arguments pass the three validations. *)
Lemma generar_cancion_validado (genero : string) (letra : option string)
    (duracion : float) (semilla : option Z) (nombre_archivo : option string)
    (st : Estado Mundo Handle) :
  In genero (dict_keys GENEROS_ESPANOL) ->
  fst (validar_letra (letra_efectiva letra)) = true ->
  fuera_de_rango duracion = false ->
  exists p,
    dict_lookup GENEROS_ESPANOL genero = Some p /\
    generar_cancion ext genero letra duracion semilla nombre_archivo st =
    match inicializar_plano ext st with
    | (st1, Ok true) =>
        generar_plano_listo ext p (letra_efectiva letra) duracion semilla nombre_archivo st1
    | (st1, Ok false) => (st1, Ok (resultado_fallido mensaje_inicio))
    | (st1, Raise e) => (st1, Raise e)
    end.
Proof.
  intros Hg Hl Hd. destruct (dict_lookup_Some _ _ Hg) as [p Hp].
  exists p. split; [exact Hp|].
  rewrite generar_cancion_es_plano. unfold generar_cancion_plano. rewrite Hp, Hd.
  destruct (validar_letra (letra_efectiva letra)) as [[|] error];
    [reflexivity|discriminate].
Qed.

(** A validated call on a façade that is not initialised starts by
    constructing the pipeline from the stored configuration. *)
Lemma generar_cancion_intenta_inicio (genero : string) (letra : option string)
    (duracion : float) (semilla : option Z) (nombre_archivo : option string)
    (st : Estado Mundo Handle) :
  In genero (dict_keys GENEROS_ESPANOL) ->
  fst (validar_letra (letra_efectiva letra)) = true ->
  fuera_de_rango duracion = false ->
  _inicializado (yo st) = false ->
  exists evs,
    traza (fst (generar_cancion ext genero letra duracion semilla nombre_archivo st)) =
    (traza st ++ EvConstruir (argumentos_constructor (config (yo st))) :: evs)%list.
Proof.
  intros Hg Hl Hd Hi.
  destruct (generar_cancion_validado genero letra duracion semilla nombre_archivo st
              Hg Hl Hd) as (p & _ & ->).
  unfold inicializar_plano. rewrite Hi.
  destruct (ext_ACEStepPipeline ext _ (mundo st)) as [w [h|e]].
  - match goal with
    | |- context [generar_plano_listo ext p ?l ?d ?s ?n ?st1] =>
        destruct (generar_plano_listo_traza p l d s n st1) as (_ & evs & Ht & _)
    end.
    exists evs. rewrite Ht. cbn [traza]. now rewrite <- app_assoc.
  - eexists. cbn. reflexivity.
Qed.

(** C9.  The pipeline state of the façade, seen through calls whose
    arguments pass the validations.  While the flag is unset, a call
    attempts the construction.  If the construction raises, the call
    returns the failed result that tells to check the GPU memory, the
    façade is left as it was (flag unset, handle unchanged), and any
    further validated call attempts the construction again.  If the
    construction returns a handle, the façade holds that handle and its
    flag is set when the call ends.  Once the flag is set, over every
    sequence of later calls the façade stays as it is, nothing is
    constructed again and every pipeline call goes to the stored handle. *)
Theorem pipeline_maquina_de_estados
    (genero : string) (letra : option string) (duracion : float)
    (semilla : option Z) (nombre_archivo : option string) (st : Estado Mundo Handle) :
  In genero (dict_keys GENEROS_ESPANOL) ->
  fst (validar_letra (letra_efectiva letra)) = true ->
  fuera_de_rango duracion = false ->
  let a := argumentos_constructor (config (yo st)) in
  let salida := generar_cancion ext genero letra duracion semilla nombre_archivo st in
  (_inicializado (yo st) = false ->
     (exists evs, traza (fst salida) = (traza st ++ EvConstruir a :: evs)%list) /\
     (forall w e,
        ext_ACEStepPipeline ext a (mundo st) = (w, Raise e) ->
        snd salida = Ok (resultado_fallido mensaje_inicio) /\
        PyStr.isin "memoria GPU" mensaje_inicio = true /\
        yo (fst salida) = yo st /\
        forall genero2 letra2 duracion2 semilla2 nombre2,
          In genero2 (dict_keys GENEROS_ESPANOL) ->
          fst (validar_letra (letra_efectiva letra2)) = true ->
          fuera_de_rango duracion2 = false ->
          exists evs,
            traza (fst (generar_cancion ext genero2 letra2 duracion2 semilla2 nombre2
                          (fst salida))) =
            (traza (fst salida) ++ EvConstruir a :: evs)%list) /\
     (forall w h,
        ext_ACEStepPipeline ext a (mundo st) = (w, Ok h) ->
        yo (fst salida) =
          {| config := config (yo st); _pipeline := Some h; _inicializado := true |})) /\
  (_inicializado (yo st) = true ->
     forall cs,
       yo (ejecutar ext cs st) = yo st /\
       exists evs, traza (ejecutar ext cs st) = (traza st ++ evs)%list /\
                   Forall (sin_reinicio (_pipeline (yo st))) evs).
Proof.
  intros Hg Hl Hd a salida. split.
  - intros Hi. split; [|split].
    + now apply generar_cancion_intenta_inicio.
    + intros w e Hc.
      assert (Hs : salida =
                   (tras_evento st w
                      [EvConstruir a;
                       EvPrint ("Error al inicializar el pipeline: " ++ exc_str e)],
                    Ok (resultado_fallido mensaje_inicio))).
      { subst salida.
        destruct (generar_cancion_validado genero letra duracion semilla nombre_archivo
                    st Hg Hl Hd) as (p & _ & ->).
        unfold inicializar_plano. fold a. now rewrite Hi, Hc. }
      rewrite Hs. cbn [fst snd]. repeat split.
      intros genero2 letra2 duracion2 semilla2 nombre2 Hg2 Hl2 Hd2.
      now apply generar_cancion_intenta_inicio.
    + intros w h Hc. subst salida.
      destruct (generar_cancion_validado genero letra duracion semilla nombre_archivo
                  st Hg Hl Hd) as (p & _ & ->).
      unfold inicializar_plano. fold a. rewrite Hi, Hc.
      match goal with
      | |- context [generar_plano_listo ext p ?l ?d ?s ?n ?st1] =>
          destruct (generar_plano_listo_traza p l d s n st1) as (Hyo & _)
      end.
      rewrite Hyo. reflexivity.
  - intros Hi cs. now apply ejecutar_listo.
Qed.

(** *** What is handed to the outside *)

(** Every call made outside by [generar_cancion] is determined by the
    stored configuration and the arguments of the call. *)
Lemma generar_cancion_eventos (genero : string) (letra : option string)
    (duracion : float) (semilla : option Z) (nombre_archivo : option string)
    (st : Estado Mundo Handle) :
  exists evs,
    traza (fst (generar_cancion ext genero letra duracion semilla nombre_archivo st)) =
      (traza st ++ evs)%list /\
    Forall (evento_esperado (config (yo st)) genero letra duracion semilla nombre_archivo)
           evs.
Proof.
  rewrite generar_cancion_es_plano. unfold generar_cancion_plano.
  assert (Hnada : exists evs : list (evento Handle),
            traza st = (traza st ++ evs)%list /\
            Forall (evento_esperado (config (yo st)) genero letra duracion semilla
                      nombre_archivo) evs).
  { exists []. now rewrite app_nil_r. }
  destruct (dict_lookup GENEROS_ESPANOL genero) as [p|] eqn:Hp; [|exact Hnada].
  destruct (validar_letra (letra_efectiva letra)) as [[|] error]; [|exact Hnada].
  destruct (fuera_de_rango duracion); [exact Hnada|].
  assert (Hlisto : forall (st1 : Estado Mundo Handle) (evs1 : list (evento Handle)),
            traza st1 = (traza st ++ evs1)%list ->
            config (yo st1) = config (yo st) ->
            Forall (evento_esperado (config (yo st)) genero letra duracion semilla
                      nombre_archivo) evs1 ->
            exists evs,
              traza (fst (generar_plano_listo ext p (letra_efectiva letra) duracion
                            semilla nombre_archivo st1)) = (traza st ++ evs)%list /\
              Forall (evento_esperado (config (yo st)) genero letra duracion semilla
                        nombre_archivo) evs).
  { intros st1 evs1 Ht Hc Hf. unfold generar_plano_listo. rewrite Hc.
    destruct (ext_makedirs ext _ (mundo st1)) as [w [[]|e]]; cbn [fst].
    - destruct (_pipeline (yo st1)) as [h|].
      + destruct (ext_call ext h _ w) as [w' [v|e]]; cbn [fst tras_evento traza];
          rewrite Ht, <- !app_assoc; eexists; (split; [reflexivity|]);
          apply Forall_app; (split; [exact Hf|]);
          repeat constructor; now exists p.
      + cbn [fst tras_evento traza]. rewrite Ht, <- app_assoc.
        eexists; split; [reflexivity|]. apply Forall_app. split; [exact Hf|].
        repeat constructor.
    - cbn [tras_evento traza]. rewrite Ht, <- app_assoc.
      eexists; split; [reflexivity|]. apply Forall_app. split; [exact Hf|].
      repeat constructor. }
  unfold inicializar_plano.
  destruct (_inicializado (yo st)).
  - apply (Hlisto st []); [now rewrite app_nil_r|reflexivity|constructor].
  - destruct (ext_ACEStepPipeline ext _ (mundo st)) as [w [h|e]].
    + eapply Hlisto; [reflexivity|reflexivity|]. repeat constructor.
    + cbn. eexists; split; [reflexivity|]. repeat constructor.
Qed.

(** *** The demo *)

(** C10.  [generar_demo] runs [generar_cancion] on a temporary generator
    whose configuration is the defaults with duration 30.0, 27 inference
    steps and guidance scale 12.0, whose handle and flag are those of the
    façade, with no lyrics, duration 30.0, no seed and the file name
    "demo_<genre>"; the façade itself is left as it was.  The stored
    configuration of the façade plays no part: with any other
    configuration the demo returns the same result, leaves the same world
    and makes the same calls, and every call made outside is the one the
    demo configuration determines; the path handed to the pipeline is
    "./salidas_espanol/demo_<genre>.wav". *)
Theorem generar_demo_configuracion (genero : string) (st : Estado Mundo Handle) :
  let config_demo := {|
    duracion_segundos := 30.0%float;
    formato_salida := "wav";
    pasos_inferencia := 27;
    escala_guia := 12.0%float;
    tipo_scheduler := "euler";
    tipo_cfg := "apg";
    escala_omega := 10.0%float;
    intervalo_guia := 0.5%float;
    decaimiento_guia := 0.0%float;
    escala_guia_minima := 3.0%float;
    usar_erg_tag := true;
    usar_erg_letra := true;
    usar_erg_difusion := true;
    semillas := None;
    directorio_salida := "./salidas_espanol";
    ruta_checkpoint := None;
    id_dispositivo := 0;
    usar_bf16 := true;
    usar_cpu_offload := false;
    usar_torch_compile := false |} in
  let generador_demo := {|
    config := config_demo;
    _pipeline := _pipeline (yo st);
    _inicializado := _inicializado (yo st) |} in
  let salida :=
    generar_cancion ext genero None 30.0%float None (Some ("demo_" ++ genero))
      {| mundo := mundo st; traza := traza st; yo := generador_demo |} in
  generar_demo ext genero st =
    ({| mundo := mundo (fst salida); traza := traza (fst salida); yo := yo st |},
     snd salida) /\
  (forall c : ConfiguracionGeneracion,
     generar_demo ext genero
       {| mundo := mundo st; traza := traza st;
          yo := {| config := c; _pipeline := _pipeline (yo st);
                   _inicializado := _inicializado (yo st) |} |} =
     ({| mundo := mundo (fst salida); traza := traza (fst salida);
         yo := {| config := c; _pipeline := _pipeline (yo st);
                  _inicializado := _inicializado (yo st) |} |},
      snd salida)) /\
  (exists evs,
     traza (fst (generar_demo ext genero st)) = (traza st ++ evs)%list /\
     Forall (evento_esperado config_demo genero None 30.0%float None
               (Some ("demo_" ++ genero))) evs) /\
  ruta_de_salida config_demo (Some ("demo_" ++ genero)) =
    "./salidas_espanol/demo_" ++ genero ++ ".wav".
Proof.
  intros config_demo generador_demo salida.
  assert (Hd : generar_demo ext genero st =
               ({| mundo := mundo (fst salida); traza := traza (fst salida);
                   yo := yo st |}, snd salida)).
  { unfold generar_demo.
    match goal with
    | |- (let (_, _) := ?x in _) = _ => set (sal := x)
    end.
    assert (Hs : salida = sal) by reflexivity.
    clearbody sal salida. subst salida. now destruct sal. }
  split; [exact Hd|split; [|split]].
  - intros c. unfold generar_demo.
    match goal with
    | |- (let (_, _) := ?x in _) = _ => set (sal := x)
    end.
    assert (Hs : salida = sal) by reflexivity.
    clearbody sal salida. subst salida. now destruct sal.
  - rewrite Hd. cbn [fst traza]. subst salida.
    exact (generar_cancion_eventos genero None 30.0%float None (Some ("demo_" ++ genero))
             {| mundo := mundo st; traza := traza st; yo := generador_demo |}).
  - reflexivity.
Qed.

(** *** Seeds *)

(** X2.  Every pipeline call of [generar_cancion] gets as seed list the
    one-element list of the passed seed when that seed is not zero, and
    the seed list of the configuration when no seed is passed or the
    passed seed is zero. *)
Theorem generar_cancion_semillas
    (genero : string) (letra : option string) (duracion : float)
    (semilla : option Z) (nombre_archivo : option string) (st : Estado Mundo Handle) :
  exists evs,
    traza (fst (generar_cancion ext genero letra duracion semilla nombre_archivo st)) =
      (traza st ++ evs)%list /\
    Forall (fun entregada =>
              entregada =
              match semilla with
              | Some z => if (z =? 0)%Z then semillas (config (yo st)) else Some [z]
              | None => semillas (config (yo st))
              end)
           (semillas_entregadas evs).
Proof.
  destruct (generar_cancion_eventos genero letra duracion semilla nombre_archivo st)
    as (evs & Ht & Hf).
  exists evs. split; [exact Ht|].
  clear Ht. induction Hf as [|ev evs Hev Hf IH]; [constructor|].
  destruct ev as [a|h a|d|m]; cbn [semillas_entregadas]; try exact IH.
  constructor; [|exact IH].
  destruct Hev as (p & _ & ->). reflexivity.
Qed.

End PropiedadesFachada.

(** ** The façade in the small concrete world *)

(** C1, the failing call.  With a valid genre, the default lyrics and a
    valid duration, when [os.makedirs] raises (here: no permission to
    create the output directory), [generar_cancion] returns no result:
    the exception leaves the method. *)
Theorem generar_cancion_makedirs_escapa :
  snd (generar_cancion (exterior_fijo (Ok 7) (Raise error_permiso) (Ok respuesta_normal))
         "pop_latino" None 60.0%float None None estado_nuevo)
  = Raise error_permiso.
Proof. vm_compute. reflexivity. Qed.

(** C3, the failing call.  With the seed 0 passed, the pipeline is handed
    the seed list of the configuration (here absent, then [7; 8]) and not
    the list holding 0; with the seed 42 it is handed the list holding 42. *)
Theorem generar_cancion_semilla_cero :
  semillas_entregadas
    (traza (fst (generar_cancion (exterior_fijo (Ok 7) (Ok tt) (Ok respuesta_normal))
                   "pop_latino" None 60.0%float (Some 0%Z) None estado_nuevo)))
  = [None] /\
  semillas_entregadas
    (traza (fst (generar_cancion (exterior_fijo (Ok 7) (Ok tt) (Ok respuesta_normal))
                   "pop_latino" None 60.0%float (Some 0%Z) None
                   {| mundo := 0; traza := [];
                      yo := GeneradorMusicaEspanol_init
                              (Some (mkConfiguracionGeneracion
                                       60.0%float "wav" 60 15.0%float "euler" "apg"
                                       10.0%float 0.5%float 0.0%float 3.0%float
                                       true true true (Some [7; 8]%Z)
                                       "./salidas_espanol" None 0 true false false)) |})))
  = [Some [7; 8]%Z] /\
  semillas_entregadas
    (traza (fst (generar_cancion (exterior_fijo (Ok 7) (Ok tt) (Ok respuesta_normal))
                   "pop_latino" None 60.0%float (Some 42%Z) None estado_nuevo)))
  = [Some [42%Z]].
Proof. repeat split; vm_compute; reflexivity. Qed.

(** C2, the claim as written fails: when the pipeline returns a list whose
    first element is not a string (here the list holds the parameter
    dictionary only), the result is a success without path. *)
Lemma generar_cancion_invariante_contraejemplo :
  exists st' r,
    generar_cancion
      (exterior_fijo (Ok 7) (Ok tt) (Ok (PyList [PyDict [("actual_seeds", PyList [PyInt 1])]])))
      "pop_latino" None 60.0%float None None estado_nuevo = (st', Ok r) /\
    exitoso r = true /\ ruta_audio r = None.
Proof. do 2 eexists. split; [vm_compute; reflexivity|split; reflexivity]. Qed.

(** C2 at a call that succeeds with the usual answer of the pipeline. *)
Lemma generar_cancion_invariante_witness :
  let r := extraer_resultado respuesta_normal in
  (exitoso r = false -> ruta_audio r = None) /\
  (exitoso r = true ->
     mensaje r = mensaje_exito /\ mensaje r <> "" /\
     exists h a w primero resto,
       ext_call (exterior_fijo (Ok 7) (Ok tt) (Ok respuesta_normal)) h a w =
         (3, Ok (PyList (primero :: resto))) /\
       ruta_audio r = match primero with PyStr p => Some p | _ => None end).
Proof.
  cbv zeta.
  refine (generar_cancion_invariante
            (exterior_fijo (Ok 7) (Ok tt) (Ok respuesta_normal))
            "pop_latino" None 60.0%float (Some 42%Z) None estado_nuevo
            {| mundo := 3; traza := _; yo := _ |} _ _).
  vm_compute. reflexivity.
Defined.

(** C7 at the genre "unknown_genre". *)
Lemma generar_cancion_genero_invalido_witness :
  exists r,
    generar_cancion (exterior_fijo (Ok 7) (Ok tt) (Ok respuesta_normal))
      "unknown_genre" None 60.0%float None None estado_nuevo = (estado_nuevo, Ok r) /\
    exitoso r = false /\
    ruta_audio r = None /\
    PyStr.isin "'unknown_genre'" (mensaje r) = true /\
    PyStr.isin "no válido" (mensaje r) = true /\
    (forall g,
       In g ["pop_latino"; "reggaeton"; "balada"; "rock_espanol"; "cumbia"; "salsa";
             "bachata"; "flamenco"; "mariachi"; "tango"; "urbano"; "folclore"] ->
       PyStr.isin g (mensaje r) = true).
Proof.
  apply (generar_cancion_genero_invalido
           (exterior_fijo (Ok 7) (Ok tt) (Ok respuesta_normal)) "unknown_genre").
  cbn [In]. intros H.
  repeat (destruct H as [H|H]; [discriminate|]). exact H.
Defined.

(** C6 at the duration 5.0 with the default lyrics. *)
Lemma generar_cancion_duracion_witness :
  generar_cancion (exterior_fijo (Ok 7) (Ok tt) (Ok respuesta_normal))
    "pop_latino" None 5.0%float None None estado_nuevo =
  (estado_nuevo, Ok (resultado_fallido mensaje_duracion)).
Proof.
  apply (generar_cancion_duracion
           (exterior_fijo (Ok 7) (Ok tt) (Ok respuesta_normal))
           "pop_latino" None 5.0%float None None estado_nuevo).
  - cbn. tauto.
  - vm_compute. reflexivity.
  - left. reflexivity.
Defined.

(** C9 at a first call whose construction raises. *)
Lemma pipeline_maquina_de_estados_witness :
  let ext := exterior_fijo (Raise (Exception "CUDA out of memory")) (Ok tt)
               (Ok respuesta_normal) in
  let salida := generar_cancion ext "pop_latino" None 60.0%float None None estado_nuevo in
  snd salida = Ok (resultado_fallido mensaje_inicio) /\
  yo (fst salida) = yo estado_nuevo.
Proof.
  cbv zeta.
  assert (Hg : In "pop_latino" (dict_keys GENEROS_ESPANOL)) by (cbn; tauto).
  assert (Hl : fst (validar_letra (letra_efectiva None)) = true)
    by (vm_compute; reflexivity).
  assert (Hd : fuera_de_rango 60.0%float = false) by reflexivity.
  destruct (pipeline_maquina_de_estados
              (exterior_fijo (Raise (Exception "CUDA out of memory")) (Ok tt)
                 (Ok respuesta_normal))
              "pop_latino" None 60.0%float None None estado_nuevo Hg Hl Hd) as [Hno _].
  destruct (Hno eq_refl) as (_ & Hfalla & _).
  destruct (Hfalla 1 (Exception "CUDA out of memory") eq_refl) as (Hs & _ & Hy & _).
  split; [exact Hs|exact Hy].
Defined.

(** * Further properties *)

(** ** The composer and the validator together *)

Lemma split_lines_aux_app (a b cur : string) :
  PyStr.split_lines_aux (a ++ String PyStr.LF b) cur =
  (PyStr.split_lines_aux a cur ++ PyStr.split_lines_aux b "")%list.
Proof.
  revert cur; induction a as [|c a IH]; intros cur;
    cbn [String.append PyStr.split_lines_aux].
  - now rewrite Ascii.eqb_refl.
  - destruct (Ascii.eqb c PyStr.LF); [now rewrite IH|apply IH].
Qed.

(** The content lines of two texts put on separate lines are those of the
    first followed by those of the second. *)
Lemma lineas_de_texto_app (a b : string) :
  lineas_de_texto (a ++ PyStr.nl ++ b) = (lineas_de_texto a ++ lineas_de_texto b)%list.
Proof.
  unfold lineas_de_texto, PyStr.split_lines. cbn [PyStr.nl String.append].
  now rewrite split_lines_aux_app, filter_app, map_app.
Qed.

Lemma lineas_de_texto_join (partes : list string) :
  lineas_de_texto (PyStr.join separador partes) = concat (map lineas_de_texto partes).
Proof.
  induction partes as [|x [|y resto] IH].
  - reflexivity.
  - cbn [PyStr.join map concat]. now rewrite app_nil_r.
  - change (PyStr.join separador (x :: y :: resto))
      with (x ++ PyStr.nl ++ ("" ++ PyStr.nl ++ PyStr.join separador (y :: resto))).
    rewrite !lineas_de_texto_app, IH. reflexivity.
Qed.

Lemma lineas_de_texto_bloque (marca texto : string) :
  lineas_de_texto (bloque marca texto) =
  (lineas_de_texto marca ++ lineas_de_texto texto)%list.
Proof. apply lineas_de_texto_app. Qed.

Lemma length_concat_lineas_versos (versos : list string) :
  List.length (concat (map lineas_de_texto (map (bloque "[verse]") versos))) =
  list_sum (map (fun v => List.length (lineas_de_texto v)) versos).
Proof.
  induction versos as [|v resto IH]; [reflexivity|].
  cbn [map concat list_sum]. rewrite length_app, IH, lineas_de_texto_bloque.
  reflexivity.
Qed.

Lemma crear_letra_empieza_con_verso (v1 : string) (resto : list string) (coro : string)
    (bridge : option string) :
  exists r, crear_letra_personalizada (v1 :: resto) coro bridge =
            "[verse]" ++ PyStr.nl ++ r.
Proof.
  unfold crear_letra_personalizada. rewrite partes_letra_cons.
  rewrite join_cons by discriminate. unfold bloque at 1.
  rewrite !append_assoc_s. now eexists.
Qed.

(** X3.  The text composed from at least one verse always passes the first
    two checks of the validator, and it is accepted exactly when its parts
    bring four content lines or more: those of every verse, those of the
    chorus once, and with a non-empty bridge those of the bridge and of
    the chorus once more. *)
Theorem validar_letra_crear_letra
    (v1 : string) (resto : list string) (coro : string) (bridge : option string) :
  let lineas := fun t => List.length (lineas_de_texto t) in
  let total :=
    lineas v1 + lineas coro + list_sum (map lineas resto) +
    match bridge with
    | Some (String a b) => lineas (String a b) + lineas coro
    | _ => 0
    end in
  validar_letra (crear_letra_personalizada (v1 :: resto) coro bridge) =
  if (total <? 4)%nat
  then (false, "La letra debe contener al menos 4 líneas de texto")
  else (true, "").
Proof.
  intros lineas total.
  assert (Hlen : List.length
                   (lineas_de_texto (crear_letra_personalizada (v1 :: resto) coro bridge))
                 = total).
  { unfold crear_letra_personalizada. rewrite partes_letra_cons, lineas_de_texto_join.
    cbn [map concat]. rewrite !length_app, map_app, concat_app, length_app.
    rewrite length_concat_lineas_versos, !lineas_de_texto_bloque.
    subst total lineas. cbv beta.
    destruct bridge as [[|a b]|]; cbn [map concat]; rewrite ?length_app, ?lineas_de_texto_bloque;
      cbn [lineas_de_texto]; simpl List.length; lia. }
  destruct (crear_letra_empieza_con_verso v1 resto coro bridge) as [r Hr].
  unfold validar_letra. rewrite Hlen.
  destruct (negb (PyStr.truthy _) || negb (PyStr.truthy (PyStr.strip _))) eqn:Hv.
  { apply prueba_vacia_iff, lstrip_empty_iff in Hv. rewrite Hr in Hv.
    cbn in Hv. discriminate. }
  assert (Hs : existsb
                 (fun seccion =>
                    PyStr.isin seccion
                      (PyStr.lower (crear_letra_personalizada (v1 :: resto) coro bridge)))
                 secciones_validas = true).
  { cbn [existsb secciones_validas]. rewrite Hr, lower_app.
    rewrite (isin_here "[verse]"); [reflexivity|].
    apply (startswith_app "[verse]"). }
  rewrite Hs. cbn [negb]. reflexivity.
Qed.

(** ** More on the generator façade *)

Section MasPropiedadesFachada.

Context {Mundo Handle : Type}.
Variable ext : Exterior Mundo Handle.

(** X4.  With a genre of the catalog, lyrics that the validator refuses
    make the call return at once, in the state it was given and whatever
    the duration, the failed result whose message is "Error en la letra: "
    followed by the message of the validator. *)
Theorem generar_cancion_letra_invalida
    (genero : string) (letra : option string) (duracion : float)
    (semilla : option Z) (nombre_archivo : option string)
    (st : Estado Mundo Handle) (error : string) :
  In genero (dict_keys GENEROS_ESPANOL) ->
  validar_letra (letra_efectiva letra) = (false, error) ->
  generar_cancion ext genero letra duracion semilla nombre_archivo st =
    (st, Ok (resultado_fallido ("Error en la letra: " ++ error))).
Proof.
  intros Hg Hl. destruct (dict_lookup_Some _ _ Hg) as [p Hp].
  rewrite generar_cancion_es_plano. unfold generar_cancion_plano.
  now rewrite Hp, Hl.
Qed.

(** The call on an initialised façade, once the validations are passed. *)
Lemma generar_cancion_listo_plano
    (genero : string) (letra : option string) (duracion : float)
    (semilla : option Z) (nombre_archivo : option string)
    (st : Estado Mundo Handle) (p : string) :
  dict_lookup GENEROS_ESPANOL genero = Some p ->
  fst (validar_letra (letra_efectiva letra)) = true ->
  fuera_de_rango duracion = false ->
  _inicializado (yo st) = true ->
  generar_cancion ext genero letra duracion semilla nombre_archivo st =
  generar_plano_listo ext p (letra_efectiva letra) duracion semilla nombre_archivo st.
Proof.
  intros Hp Hl Hd Hi.
  rewrite generar_cancion_es_plano. unfold generar_cancion_plano, inicializar_plano.
  rewrite Hp, Hd, Hi.
  destruct (validar_letra (letra_efectiva letra)) as [[|] error];
    [reflexivity|discriminate].
Qed.

(** X5.  On an initialised façade, a validated call for which
    [os.makedirs] succeeds and the pipeline returns a list that starts with
    a string succeeds: the façade is unchanged, the directory was created
    and the pipeline called once with the arguments derived from the
    configuration, and the result carries that string as path.  When the
    list ends with a dictionary, the parameters are that dictionary and the
    timings and seeds are its entries "timecosts" and "actual_seeds", empty
    when missing; when the list holds the path alone, all three are empty. *)
Theorem generar_cancion_exito
    (genero : string) (letra : option string) (duracion : float)
    (semilla : option Z) (nombre_archivo : option string)
    (st : Estado Mundo Handle) (p : string) (h : Handle) (w1 w2 : Mundo)
    (ruta : string) (resto : list pyval) :
  let c := config (yo st) in
  let a := argumentos_llamada c p (letra_efectiva letra) duracion semilla nombre_archivo in
  dict_lookup GENEROS_ESPANOL genero = Some p ->
  fst (validar_letra (letra_efectiva letra)) = true ->
  fuera_de_rango duracion = false ->
  _inicializado (yo st) = true ->
  _pipeline (yo st) = Some h ->
  ext_makedirs ext (directorio_salida c) (mundo st) = (w1, Ok tt) ->
  ext_call ext h a w1 = (w2, Ok (PyList (PyStr ruta :: resto))) ->
  exists r,
    generar_cancion ext genero letra duracion semilla nombre_archivo st =
      ({| mundo := w2;
          traza := (traza st ++ [EvMakedirs (directorio_salida c); EvInvocar h a])%list;
          yo := yo st |}, Ok r) /\
    exitoso r = true /\
    ruta_audio r = Some ruta /\
    mensaje r = "Generación completada exitosamente" /\
    (forall medio d,
       resto = (medio ++ [PyDict d])%list ->
       parametros r = d /\
       tiempos r = dict_get d "timecosts" (PyDict []) /\
       semillas_usadas r = dict_get d "actual_seeds" (PyList [])) /\
    (resto = [] ->
       parametros r = [] /\ tiempos r = PyDict [] /\ semillas_usadas r = PyList []).
Proof.
  intros c a Hp Hl Hd Hi Hh Hm Hc.
  exists (extraer_resultado (PyList (PyStr ruta :: resto))). split.
  - rewrite (generar_cancion_listo_plano _ _ _ _ _ _ p Hp Hl Hd Hi).
    unfold generar_plano_listo. fold c. rewrite Hm, Hh. fold a. rewrite Hc.
    unfold tras_evento. cbn [mundo traza yo]. now rewrite <- app_assoc.
  - repeat split.
    + subst resto. cbn [extraer_resultado parametros].
      change (PyStr ruta :: medio ++ [PyDict d])%list
        with ((PyStr ruta :: medio) ++ [PyDict d])%list.
      now rewrite last_last.
    + subst resto. cbn [extraer_resultado tiempos].
      change (PyStr ruta :: medio ++ [PyDict d])%list
        with ((PyStr ruta :: medio) ++ [PyDict d])%list.
      now rewrite last_last.
    + subst resto. cbn [extraer_resultado semillas_usadas].
      change (PyStr ruta :: medio ++ [PyDict d])%list
        with ((PyStr ruta :: medio) ++ [PyDict d])%list.
      now rewrite last_last.
    + now subst resto.
    + now subst resto.
    + now subst resto.
Qed.

(** X6.  On an initialised façade, when the pipeline call of a validated
    call raises, the call returns the failed result whose message is
    "Error durante la generación: " followed by the text of the exception;
    the façade stays initialised with its handle, and the output directory
    has been created all the same. *)
Theorem generar_cancion_llamada_falla
    (genero : string) (letra : option string) (duracion : float)
    (semilla : option Z) (nombre_archivo : option string)
    (st : Estado Mundo Handle) (p : string) (h : Handle) (w1 w2 : Mundo) (e : exc) :
  let c := config (yo st) in
  let a := argumentos_llamada c p (letra_efectiva letra) duracion semilla nombre_archivo in
  dict_lookup GENEROS_ESPANOL genero = Some p ->
  fst (validar_letra (letra_efectiva letra)) = true ->
  fuera_de_rango duracion = false ->
  _inicializado (yo st) = true ->
  _pipeline (yo st) = Some h ->
  ext_makedirs ext (directorio_salida c) (mundo st) = (w1, Ok tt) ->
  ext_call ext h a w1 = (w2, Raise e) ->
  generar_cancion ext genero letra duracion semilla nombre_archivo st =
    ({| mundo := w2;
        traza := (traza st ++ [EvMakedirs (directorio_salida c); EvInvocar h a])%list;
        yo := yo st |},
     Ok (resultado_fallido ("Error durante la generación: " ++ exc_str e))).
Proof.
  intros c a Hp Hl Hd Hi Hh Hm Hc.
  rewrite (generar_cancion_listo_plano _ _ _ _ _ _ p Hp Hl Hd Hi).
  unfold generar_plano_listo. fold c. rewrite Hm, Hh. fold a. rewrite Hc.
  unfold tras_evento. cbn [mundo traza yo]. now rewrite <- app_assoc.
Qed.

End MasPropiedadesFachada.

(** ** What one call does outside, and what calls leave behind *)

Section TrazaEInvariantes.

Context {Mundo Handle : Type}.
Variable ext : Exterior Mundo Handle.

Lemma generar_plano_listo_forma (p letra : string) (duracion : float)
    (semilla : option Z) (nombre_archivo : option string) (st1 : Estado Mundo Handle) :
  let st' := fst (generar_plano_listo ext p letra duracion semilla nombre_archivo st1) in
  let d := directorio_salida (config (yo st1)) in
  yo st' = yo st1 /\
  (traza st' = (traza st1 ++ [EvMakedirs d])%list \/
   exists h a, traza st' = (traza st1 ++ [EvMakedirs d; EvInvocar h a])%list).
Proof.
  unfold generar_plano_listo.
  destruct (ext_makedirs ext _ (mundo st1)) as [w [[]|e]]; cbn.
  - destruct (_pipeline (yo st1)) as [h|].
    + destruct (ext_call ext h _ w) as [w' [v|e]]; cbn; (split; [reflexivity|]);
        right; do 2 eexists; now rewrite <- app_assoc.
    + cbn. split; [reflexivity|now left].
  - split; [reflexivity|now left].
Qed.

(** What one call leaves: the façade as it was, or as it was with the
    handle just constructed and the flag set. *)
Lemma generar_cancion_forma (genero : string) (letra : option string)
    (duracion : float) (semilla : option Z) (nombre_archivo : option string)
    (st : Estado Mundo Handle) :
  let st' := fst (generar_cancion ext genero letra duracion semilla nombre_archivo st) in
  (yo st' = yo st \/
   exists h, _inicializado (yo st) = false /\
             yo st' = {| config := config (yo st); _pipeline := Some h;
                         _inicializado := true |}) /\
  exists evs, traza st' = (traza st ++ evs)%list /\
              forma_de_llamada (_inicializado (yo st)) (config (yo st)) evs.
Proof.
  rewrite generar_cancion_es_plano. unfold generar_cancion_plano.
  assert (Hnada : (yo st = yo st \/
                   exists h, _inicializado (yo st) = false /\
                             yo st = {| config := config (yo st); _pipeline := Some h;
                                        _inicializado := true |}) /\
                  exists evs, traza st = (traza st ++ evs)%list /\
                              forma_de_llamada (Handle:=Handle) (_inicializado (yo st))
                                (config (yo st)) evs).
  { split; [now left|]. exists []. split; [now rewrite app_nil_r|now left]. }
  destruct (dict_lookup GENEROS_ESPANOL genero) as [p|]; [|exact Hnada].
  destruct (validar_letra (letra_efectiva letra)) as [[|] error]; [|exact Hnada].
  destruct (fuera_de_rango duracion); [exact Hnada|].
  clear Hnada. unfold inicializar_plano.
  destruct (_inicializado (yo st)) eqn:Hi.
  - match goal with
    | |- context [generar_plano_listo ext p ?l ?d ?s ?n ?st1] =>
        destruct (generar_plano_listo_forma p l d s n st1) as (Hyo & Ht)
    end.
    cbv zeta. split; [now left|].
    destruct Ht as [Ht|(h & a & Ht)]; eexists; (split; [exact Ht|]);
      right; right; [now left|right; now exists h, a].
  - destruct (ext_ACEStepPipeline ext _ (mundo st)) as [w [h|e]].
    + match goal with
      | |- context [generar_plano_listo ext p ?l ?d ?s ?n ?st1] =>
          destruct (generar_plano_listo_forma p l d s n st1) as (Hyo & Ht)
      end.
      cbv zeta. cbn [yo traza config] in *. split.
      * right. exists h. split; [reflexivity|exact Hyo].
      * destruct Ht as [Ht|(h' & a & Ht)]; rewrite Ht, <- app_assoc;
          eexists; (split; [reflexivity|]); right; right;
          [now left|right; now exists h', a].
    + cbn. split; [now left|]. eexists. split; [reflexivity|].
      right; left. split; [reflexivity|now eexists].
Qed.

(** X7.  One call of [generar_cancion] makes its outside calls in a fixed
    shape that depends on the flag of the façade: nothing at all; or, on a
    façade that was not initialised, a construction that raised and the
    print of its error; or the creation of the configured output directory
    followed by at most one call of the pipeline, with one construction
    before it exactly when the façade was not initialised and with no
    construction on an initialised façade.  So the pipeline is never called
    twice, never before the directory exists, and nothing is retried. *)
Theorem generar_cancion_forma_traza
    (genero : string) (letra : option string) (duracion : float)
    (semilla : option Z) (nombre_archivo : option string) (st : Estado Mundo Handle) :
  exists evs,
    traza (fst (generar_cancion ext genero letra duracion semilla nombre_archivo st)) =
      (traza st ++ evs)%list /\
    forma_de_llamada (_inicializado (yo st)) (config (yo st)) evs.
Proof. apply generar_cancion_forma. Qed.

Lemma ejecutar1_forma (c : llamada) (st : Estado Mundo Handle) :
  yo (ejecutar1 ext c st) = yo st \/
  exists h, _inicializado (yo st) = false /\
            yo (ejecutar1 ext c st) =
              {| config := config (yo st); _pipeline := Some h; _inicializado := true |}.
Proof.
  destruct c as [g l d s n|g]; cbn [ejecutar1].
  - apply generar_cancion_forma.
  - left. unfold generar_demo.
    match goal with
    | |- context [generar_cancion ext ?g ?l ?d ?s ?n ?st0] =>
        destruct (generar_cancion ext g l d s n st0) as [st1 r]
    end.
    reflexivity.
Qed.

(** X8.  Whatever calls are made on a façade built by the constructor, and
    whatever the outside answers, the stored configuration never changes,
    and the flag is set only together with a handle. *)
Theorem ejecutar_conserva
    (cfg : option ConfiguracionGeneracion) (w : Mundo) (t : list (evento Handle))
    (cs : list llamada) :
  let g := yo (ejecutar ext cs
                 {| mundo := w; traza := t; yo := GeneradorMusicaEspanol_init cfg |}) in
  config g = config (GeneradorMusicaEspanol_init (Handle:=Handle) cfg) /\
  (_inicializado g = true -> exists h, _pipeline g = Some h) /\
  (_inicializado g = false -> _pipeline g = None).
Proof.
  assert (H : forall (cs : list llamada) (st : Estado Mundo Handle),
            ((_inicializado (yo st) = true -> exists h, _pipeline (yo st) = Some h) /\
             (_inicializado (yo st) = false -> _pipeline (yo st) = None)) ->
            config (yo (ejecutar ext cs st)) = config (yo st) /\
            (_inicializado (yo (ejecutar ext cs st)) = true ->
             exists h, _pipeline (yo (ejecutar ext cs st)) = Some h) /\
            (_inicializado (yo (ejecutar ext cs st)) = false ->
             _pipeline (yo (ejecutar ext cs st)) = None)).
  { clear cs. induction cs as [|c cs IH]; intros st Hst; cbn [ejecutar].
    - split; [reflexivity|exact Hst].
    - destruct (ejecutar1_forma c st) as [Hyo|(h & Hi & Hyo)].
      + destruct (IH (ejecutar1 ext c st)) as (Hc & Hrest); [now rewrite Hyo|].
        split; [now rewrite Hc, Hyo|exact Hrest].
      + destruct (IH (ejecutar1 ext c st)) as (Hc & Hrest).
        { rewrite Hyo. cbn. split; [now eexists|discriminate]. }
        split; [now rewrite Hc, Hyo|exact Hrest]. }
  apply H. cbn. split; [discriminate|reflexivity].
Qed.

End TrazaEInvariantes.

(** ** The demo, the stored duration and the output path *)

Section DemoYRutas.

Context {Mundo Handle : Type}.
Variable ext : Exterior Mundo Handle.

(** X9.  [generar_demo] never initialises the façade it is called on: on a
    façade whose flag is unset, a demo for a genre of the catalog
    constructs a pipeline from the demo configuration and leaves the
    façade as it was, flag unset and without handle, so that the next demo
    or song constructs a pipeline again. *)
Theorem generar_demo_reconstruye (genero : string) (st : Estado Mundo Handle) :
  In genero (dict_keys GENEROS_ESPANOL) ->
  _inicializado (yo st) = false ->
  let st' := fst (generar_demo ext genero st) in
  yo st' = yo st /\
  exists evs,
    traza st' =
      (traza st ++
       EvConstruir (argumentos_constructor
                      (ConfiguracionGeneracion_kw (Some 30.0%float) (Some 27%Z)
                                                  (Some 12.0%float))) :: evs)%list.
Proof.
  intros Hg Hi. unfold generar_demo.
  match goal with
  | |- context [generar_cancion ext ?g ?l ?d ?s ?n ?st0] =>
      destruct (generar_cancion_intenta_inicio ext g l d s n st0 Hg) as [evs Ht];
        [vm_compute; reflexivity|reflexivity|exact Hi|];
      destruct (generar_cancion ext g l d s n st0) as [st1 r]
  end.
  cbn in *. split; [reflexivity|]. now exists evs.
Qed.

Lemma generar_plano_listo_con_duracion (p letra : string) (duracion : float)
    (semilla : option Z) (nombre_archivo : option string)
    (w : Mundo) (t : list (evento Handle)) (c : ConfiguracionGeneracion)
    (ph : option Handle) (b : bool) (x : float) :
  let sal := generar_plano_listo ext p letra duracion semilla nombre_archivo
               {| mundo := w; traza := t;
                  yo := {| config := c; _pipeline := ph; _inicializado := b |} |} in
  let sal' := generar_plano_listo ext p letra duracion semilla nombre_archivo
                {| mundo := w; traza := t;
                   yo := {| config := con_duracion_segundos x c; _pipeline := ph;
                            _inicializado := b |} |} in
  snd sal' = snd sal /\ mundo (fst sal') = mundo (fst sal) /\
  traza (fst sal') = traza (fst sal) /\
  _pipeline (yo (fst sal')) = _pipeline (yo (fst sal)) /\
  _inicializado (yo (fst sal')) = _inicializado (yo (fst sal)).
Proof.
  unfold generar_plano_listo. cbn [yo config mundo traza _pipeline].
  change (directorio_salida (con_duracion_segundos x c)) with (directorio_salida c).
  change (argumentos_llamada (con_duracion_segundos x c) p letra duracion semilla
            nombre_archivo)
    with (argumentos_llamada c p letra duracion semilla nombre_archivo).
  destruct (ext_makedirs ext (directorio_salida c) w) as [w1 [[]|e]]; [|now cbn].
  destruct ph as [h|]; [|now cbn].
  destruct (ext_call ext h _ w1) as [w2 [v|e]]; now cbn.
Qed.

(** X10.  The field [duracion_segundos] of the stored configuration plays
    no part in [generar_cancion]: with any other value in it the call
    returns the same result, leaves the same world, makes the same outside
    calls and leaves the same handle and flag.  Only the [duracion]
    argument of the call counts. *)
Theorem generar_cancion_ignora_duracion_segundos
    (genero : string) (letra : option string) (duracion : float)
    (semilla : option Z) (nombre_archivo : option string)
    (w : Mundo) (t : list (evento Handle)) (c : ConfiguracionGeneracion)
    (ph : option Handle) (b : bool) (x : float) :
  let sal := generar_cancion ext genero letra duracion semilla nombre_archivo
               {| mundo := w; traza := t;
                  yo := {| config := c; _pipeline := ph; _inicializado := b |} |} in
  let sal' := generar_cancion ext genero letra duracion semilla nombre_archivo
                {| mundo := w; traza := t;
                   yo := {| config := con_duracion_segundos x c; _pipeline := ph;
                            _inicializado := b |} |} in
  snd sal' = snd sal /\ mundo (fst sal') = mundo (fst sal) /\
  traza (fst sal') = traza (fst sal) /\
  _pipeline (yo (fst sal')) = _pipeline (yo (fst sal)) /\
  _inicializado (yo (fst sal')) = _inicializado (yo (fst sal)).
Proof.
  cbv zeta. rewrite !generar_cancion_es_plano. unfold generar_cancion_plano.
  destruct (dict_lookup GENEROS_ESPANOL genero) as [p|]; [|now cbn].
  destruct (validar_letra (letra_efectiva letra)) as [[|] error]; [|now cbn].
  destruct (fuera_de_rango duracion); [now cbn|].
  unfold inicializar_plano. cbn [yo config mundo traza _pipeline _inicializado].
  change (argumentos_constructor (con_duracion_segundos x c))
    with (argumentos_constructor c).
  destruct b.
  - apply generar_plano_listo_con_duracion.
  - destruct (ext_ACEStepPipeline ext (argumentos_constructor c) w) as [w1 [h|e]].
    + apply generar_plano_listo_con_duracion.
    + now cbn.
Qed.

(** X11.  The path handed to the pipeline by a call: the configured output
    directory itself when no file name or an empty one is passed; the
    directory, a slash and "<name>.<format>" for a plain name when the
    directory is non-empty and does not end with a slash; and
    "<name>.<format>" alone, outside the configured directory, when the
    name starts with a slash. *)
Theorem generar_cancion_ruta_de_salida
    (genero : string) (letra : option string) (duracion : float)
    (semilla : option Z) (nombre_archivo : option string) (st : Estado Mundo Handle) :
  let c := config (yo st) in
  exists evs,
    traza (fst (generar_cancion ext genero letra duracion semilla nombre_archivo st)) =
      (traza st ++ evs)%list /\
    ((nombre_archivo = None \/ nombre_archivo = Some "") ->
       Forall (eq (directorio_salida c)) (rutas_entregadas evs)) /\
    (forall n,
       nombre_archivo = Some n -> n <> "" -> PyStr.startswith "/" n = false ->
       directorio_salida c <> "" -> PyStr.endswith "/" (directorio_salida c) = false ->
       Forall (eq (directorio_salida c ++ "/" ++ n ++ "." ++ formato_salida c))
              (rutas_entregadas evs)) /\
    (forall n,
       nombre_archivo = Some n -> PyStr.startswith "/" n = true ->
       Forall (eq (n ++ "." ++ formato_salida c)) (rutas_entregadas evs)).
Proof.
  intros c.
  destruct (generar_cancion_eventos ext genero letra duracion semilla nombre_archivo st)
    as (evs & Ht & Hf).
  exists evs. split; [exact Ht|].
  assert (Hr : Forall (eq (ruta_de_salida c nombre_archivo)) (rutas_entregadas evs)).
  { clear Ht. induction Hf as [|ev evs Hev Hf IH]; [constructor|].
    destruct ev as [a|h a|d|m]; cbn [rutas_entregadas]; try exact IH.
    constructor; [|exact IH]. destruct Hev as (p & _ & ->). reflexivity. }
  split; [|split].
  - intros [->| ->]; exact Hr.
  - intros n -> Hn Hs Hd He. unfold ruta_de_salida, os_path_join in Hr.
    destruct n as [|x n]; [congruence|]. cbn [PyStr.truthy] in Hr.
    assert (Hs' : PyStr.startswith "/" (String x n ++ "." ++ formato_salida c) = false).
    { destruct (PyStr.startswith "/" (String x n ++ "." ++ formato_salida c)) eqn:E;
        [|reflexivity].
      cbn [String.append PyStr.startswith] in *. congruence. }
    rewrite Hs', He in Hr.
    destruct (directorio_salida c) eqn:Ed; [congruence|]. exact Hr.
  - intros n -> Hs. unfold ruta_de_salida, os_path_join in Hr.
    destruct n as [|x n]; [discriminate|]. cbn [PyStr.truthy] in Hr.
    assert (Hs' : PyStr.startswith "/" (String x n ++ "." ++ formato_salida c) = true).
    { cbn [String.append PyStr.startswith] in *. exact Hs. }
    now rewrite Hs' in Hr.
Qed.

End DemoYRutas.

(** ** The command line *)

Section PropiedadesDemo.

Context {Mundo Handle : Type}.
Variable ext : Exterior Mundo Handle.
Variable fmt : Formato.

Lemma imprime_print (s : string) (Q : res unit -> Prop) :
  Q (Ok tt) -> imprime (Mundo:=Mundo) (Handle:=Handle) (print s) Q.
Proof.
  intros HQ st. exists [EvPrint s], (Ok tt). repeat split; [|exact HQ].
  repeat constructor.
Qed.

Lemma imprime_ret {A : Type} (a : A) (Q : res A -> Prop) :
  Q (Ok a) -> imprime (Mundo:=Mundo) (Handle:=Handle) (ret a) Q.
Proof.
  intros HQ st. exists [], (Ok a). repeat split; [|constructor|exact HQ].
  unfold ret. rewrite app_nil_r. now destruct st.
Qed.

Lemma imprime_raise {A : Type} (e : exc) (Q : res A -> Prop) :
  Q (Raise e) -> imprime (Mundo:=Mundo) (Handle:=Handle) (raise e) Q.
Proof.
  intros HQ st. exists [], (Raise e). repeat split; [|constructor|exact HQ].
  unfold raise. rewrite app_nil_r. now destruct st.
Qed.

Lemma imprime_bind {A B : Type} (c : @M Mundo Handle A) (k : A -> @M Mundo Handle B)
    (Q1 : res A -> Prop) (Q2 : res B -> Prop) :
  imprime c Q1 ->
  (forall a, Q1 (Ok a) -> imprime (k a) Q2) ->
  (forall e, Q1 (Raise e) -> Q2 (Raise e)) ->
  imprime (bind c k) Q2.
Proof.
  intros Hc Hk He st. destruct (Hc st) as (evs1 & r1 & E1 & F1 & HQ1).
  unfold bind. rewrite E1. destruct r1 as [a|e].
  - destruct (Hk a HQ1 {| mundo := mundo st; traza := (traza st ++ evs1)%list;
                          yo := yo st |}) as (evs2 & r2 & E2 & F2 & HQ2).
    rewrite E2. cbn [mundo traza yo]. exists (evs1 ++ evs2)%list, r2.
    repeat split; [now rewrite app_assoc|now apply Forall_app|exact HQ2].
  - exists evs1, (Raise e). repeat split; [exact F1|now apply He].
Qed.

Lemma imprime_consecuencia {A : Type} (c : @M Mundo Handle A) (Q1 Q2 : res A -> Prop) :
  imprime c Q1 -> (forall r, Q1 r -> Q2 r) -> imprime c Q2.
Proof.
  intros Hc HQ st. destruct (Hc st) as (evs & r & E & F & H1).
  exists evs, r. repeat split; auto.
Qed.

Lemma imprime_para_cada {A : Type} (l : list A) (f : A -> @M Mundo Handle unit)
    (Q : res unit -> Prop) :
  Q (Ok tt) ->
  (forall x, In x l -> imprime (f x) Q) ->
  (forall e, Q (Raise e) -> Q (Raise e)) ->
  imprime (para_cada l f) Q.
Proof.
  intros HQ Hf _. induction l as [|x l IH]; cbn [para_cada].
  - now apply imprime_ret.
  - eapply imprime_bind with (Q1 := Q).
    + apply Hf. now left.
    + intros _ _. apply IH. intros y Hy. apply Hf. now right.
    + auto.
Qed.




Lemma getitem_plantilla (n l : string) :
  dict_lookup PLANTILLAS_LETRAS n = Some l ->
  getitem (Mundo:=Mundo) (Handle:=Handle) PLANTILLAS_LETRAS n = ret l.
Proof. unfold getitem. now intros ->. Qed.

(** [generar_musica] is: prints, then [generar_cancion] on a new generator
    built from the arguments, with the lyrics of a template, then the
    report. *)
Lemma generar_musica_descompone (args : Args) (st : Estado Mundo Handle) :
  exists evs0,
    Forall es_print evs0 /\
    generar_musica ext fmt args st =
    match generar_cancion ext (arg_genero args) (Some (letra_de_args args))
            (arg_duracion args) (arg_semilla args) (arg_nombre_archivo args)
            {| mundo := mundo st;
               traza := (traza st ++ evs0)%list;
               yo := GeneradorMusicaEspanol_init
                       (Some (ConfiguracionGeneracion_de_args args)) |} with
    | (st1, Ok res) => informe fmt res st1
    | (st1, Raise e) => (st1, Raise e)
    end.
Proof.
  assert (Hsel : exists m,
            forall (k : string -> @M Mundo Handle Z) (st0 : Estado Mundo Handle),
              bind (match arg_plantilla args with
                    | Some n =>
                        if PyStr.truthy n && dict_contains PLANTILLAS_LETRAS n
                        then bind (getitem PLANTILLAS_LETRAS n)
                               (fun l => bind (print ("Usando plantilla: " ++ n))
                                           (fun _ => ret l))
                        else bind (getitem PLANTILLAS_LETRAS "amor")
                               (fun l => bind (print "Usando plantilla por defecto: amor")
                                           (fun _ => ret l))
                    | None =>
                        bind (getitem PLANTILLAS_LETRAS "amor")
                          (fun l => bind (print "Usando plantilla por defecto: amor")
                                      (fun _ => ret l))
                    end) k st0 =
              k (letra_de_args args) (registrar (EvPrint m) st0)).
  { unfold letra_de_args.
    destruct (arg_plantilla args) as [n|];
      [|exists "Usando plantilla por defecto: amor"; reflexivity].
    unfold dict_contains.
    destruct (dict_lookup PLANTILLAS_LETRAS n) as [l|] eqn:Hn.
    - destruct n as [|x n]; [discriminate|]. cbn [PyStr.truthy andb].
      rewrite (getitem_plantilla _ _ Hn). eexists. intros k st0. reflexivity.
    - rewrite andb_false_r. exists "Usando plantilla por defecto: amor". reflexivity. }
  destruct Hsel as [m Hsel].
  unfold generar_musica.
  match goal with
  | |- context [bind (match arg_semilla args with Some _ => _ | None => _ end) ?k] =>
      set (csem := match arg_semilla args with
                   | Some z =>
                       if (z =? 0)%Z then ret tt
                       else print (Mundo:=Mundo) (Handle:=Handle)
                              ("  - Semilla: " ++ str_int z)
                   | None => ret tt
                   end)
  end.
  assert (Hsem : exists evs,
            Forall (es_print (Handle:=Handle)) evs /\
            forall st0 : Estado Mundo Handle,
              csem st0 =
              ({| mundo := mundo st0; traza := (traza st0 ++ evs)%list; yo := yo st0 |},
               Ok tt)).
  { subst csem. destruct (arg_semilla args) as [z|]; [destruct (z =? 0)%Z|].
    - exists []. split; [constructor|]. intros [w t g]. unfold ret. cbn.
      now rewrite app_nil_r.
    - eexists [_]. split; [|intros st0; reflexivity]. repeat constructor.
    - exists []. split; [constructor|]. intros [w t g]. unfold ret. cbn.
      now rewrite app_nil_r. }
  clearbody csem. destruct Hsem as (evs_s & Fs & Hsem).
  eexists. split; [shelve|].
  cbn [bind print]. unfold bind at 1. rewrite Hsem.
  cbn [bind print set_self].
  match goal with
  | |- context [bind (match arg_plantilla args with Some _ => _ | None => _ end) ?K ?s0] =>
      rewrite (Hsel K s0)
  end.
  cbn beta. unfold bind at 1. unfold registrar. cbn [mundo traza yo].
  rewrite <- !app_assoc. cbn [app].
  reflexivity.
  Unshelve.
  repeat (apply Forall_cons; [exact I|]).
  apply Forall_app. split; [exact Fs|]. repeat constructor.
Qed.

Lemma dict_lookup_In {A : Type} (d : list (string * A)) (k : string) (v : A) :
  dict_lookup d k = Some v -> In v (map snd d).
Proof.
  induction d as [|[k' v'] d IH]; cbn [dict_lookup map snd In]; [discriminate|].
  destruct (String.eqb k k'); [intros H; injection H as ->; now left|].
  intros H. right. now apply IH.
Qed.

Lemma plantillas_validas :
  Forall (fun l => fst (validar_letra l) = true) (map snd PLANTILLAS_LETRAS).
Proof. repeat constructor; vm_compute; reflexivity. Qed.

(** The lyrics that [generar_musica] picks are a template of the catalog
    and always pass the validator. *)
Lemma letra_de_args_valida (args : Args) :
  fst (validar_letra (letra_de_args args)) = true /\
  In (letra_de_args args) (map snd PLANTILLAS_LETRAS).
Proof.
  assert (Hin : In (letra_de_args args) (map snd PLANTILLAS_LETRAS)).
  { unfold letra_de_args.
    destruct (arg_plantilla args) as [n|]; [|left; reflexivity].
    destruct (dict_lookup PLANTILLAS_LETRAS n) as [l|] eqn:Hn; [|left; reflexivity].
    now apply (dict_lookup_In _ n). }
  split; [|exact Hin].
  exact (proj1 (Forall_forall _ _) plantillas_validas _ Hin).
Qed.

Lemma imprimir_tiempos_imprime (v : pyval) :
  imprime (Mundo:=Mundo) (Handle:=Handle) (imprimir_tiempos fmt v) (fun _ => True).
Proof.
  destruct v; try (now apply imprime_raise).
  cbn [imprimir_tiempos]. apply imprime_para_cada; [exact I| |auto].
  intros x _. destruct (format_2f fmt (snd x));
    [now apply imprime_print|now apply imprime_raise].
Qed.

(** The report on a failed result: four prints, exit code 1. *)
Lemma informe_fallo (res : ResultadoGeneracion) (st1 : Estado Mundo Handle) :
  exitoso res = false ->
  informe fmt res st1 =
    ({| mundo := mundo st1;
        traza := (traza st1 ++
                  [EvPrint (PyStr.nl ++ repetir "-" 60);
                   EvPrint "ERROR EN LA GENERACIÓN";
                   EvPrint (PyStr.nl ++ "Mensaje: " ++ mensaje res);
                   EvPrint (PyStr.nl ++ repetir "=" 60 ++ PyStr.nl)])%list;
        yo := yo st1 |}, Ok 1%Z).
Proof.
  intros He. unfold informe. rewrite He.
  cbn [bind print]. unfold ret, registrar. cbn [mundo traza yo].
  now rewrite <- !app_assoc.
Qed.

Lemma bind_print (s : string) {B : Type} (k : unit -> @M Mundo Handle B)
    (st : Estado Mundo Handle) :
  bind (print s) k st = k tt (registrar (EvPrint s) st).
Proof. reflexivity. Qed.

Lemma bind_assoc {A B C : Type} (c : @M Mundo Handle A) (f : A -> @M Mundo Handle B)
    (g : B -> @M Mundo Handle C) (st : Estado Mundo Handle) :
  bind (bind c f) g st = bind c (fun a => bind (f a) g) st.
Proof. unfold bind. destruct (c st) as [st1 [a|e]]; reflexivity. Qed.

(** The report on a success: prints only, starting with the success
    line; it ends with exit code 0 unless the printing of the timings
    raises. *)
Lemma informe_exito (res : ResultadoGeneracion) (st1 : Estado Mundo Handle) :
  exitoso res = true ->
  exists evs r,
    informe fmt res st1 =
      ({| mundo := mundo st1;
          traza := (traza st1 ++
                    EvPrint (PyStr.nl ++ repetir "-" 60)
                    :: EvPrint "¡GENERACIÓN EXITOSA!" :: evs)%list;
          yo := yo st1 |}, r) /\
    Forall es_print evs /\
    (r = Ok 0%Z \/ exists e, r = Raise e).
Proof.
  intros He. unfold informe. rewrite He. cbv iota.
  rewrite bind_print, bind_assoc, bind_print.
  match goal with
  | |- context [bind ?c ?k (registrar ?e2 (registrar ?e1 st1))] =>
      assert (Hc : imprime (bind c k) (fun r => r = Ok 0%Z \/ exists e, r = Raise e));
        [|destruct (Hc (registrar e2 (registrar e1 st1))) as (evs & r & E & F & HQ)]
  end.
  { eapply imprime_bind with (Q1 := fun _ => True).
    - eapply imprime_bind with (Q1 := fun _ => True);
        [now apply imprime_print| |auto].
      intros _ _. eapply imprime_bind with (Q1 := fun _ => True).
      + destruct (py_truthy (tiempos res)); [|now apply imprime_ret].
        eapply imprime_bind with (Q1 := fun _ => True);
          [now apply imprime_print| |auto].
        intros _ _. apply imprimir_tiempos_imprime.
      + intros _ _. destruct (py_truthy (semillas_usadas res));
          [now apply imprime_print|now apply imprime_ret].
      + auto.
    - intros _ _. eapply imprime_bind with (Q1 := fun _ => True);
        [now apply imprime_print| |intros e _; right; now exists e].
      intros _ _. apply imprime_ret. now left.
    - intros e _. right. now exists e. }
  exists evs, r. split; [|split; [exact F|exact HQ]].
  rewrite E. unfold registrar. cbn [mundo traza yo].
  now rewrite <- !app_assoc.
Qed.



(** The report only prints. *)
Lemma informe_imprime (res : ResultadoGeneracion) :
  imprime (Mundo:=Mundo) (Handle:=Handle) (informe fmt res) (fun _ => True).
Proof.
  destruct (exitoso res) eqn:He; intros s1.
  - destruct (informe_exito res s1 He) as (evs & r & E & F & _).
    eexists; exists r. split; [exact E|]. split; [|exact I].
    repeat (apply Forall_cons; [exact I|]). exact F.
  - rewrite (informe_fallo res s1 He). eexists; eexists.
    split; [reflexivity|]. split; [|exact I]. repeat constructor.
Qed.

(** X14.  With a genre outside the catalog, or a duration out of range,
    [generar_musica] returns 1 after printing only: the world is
    untouched, no pipeline is constructed and no directory is created. *)
Theorem generar_musica_rechaza (args : Args) (st : Estado Mundo Handle) :
  ~ In (arg_genero args) (dict_keys GENEROS_ESPANOL) \/
  fuera_de_rango (arg_duracion args) = true ->
  exists evs,
    generar_musica ext fmt args st =
      ({| mundo := mundo st;
          traza := (traza st ++ evs)%list;
          yo := GeneradorMusicaEspanol_init
                  (Some (ConfiguracionGeneracion_de_args args)) |}, Ok 1%Z) /\
    Forall es_print evs.
Proof.
  intros H.
  destruct (generar_musica_descompone args st) as (evs0 & F0 & ->).
  assert (Hg : exists m,
            generar_cancion ext (arg_genero args) (Some (letra_de_args args))
              (arg_duracion args) (arg_semilla args) (arg_nombre_archivo args)
              {| mundo := mundo st; traza := (traza st ++ evs0)%list;
                 yo := GeneradorMusicaEspanol_init
                         (Some (ConfiguracionGeneracion_de_args args)) |} =
            ({| mundo := mundo st; traza := (traza st ++ evs0)%list;
                yo := GeneradorMusicaEspanol_init
                        (Some (ConfiguracionGeneracion_de_args args)) |},
             Ok (resultado_fallido m))).
  { rewrite generar_cancion_es_plano. unfold generar_cancion_plano.
    destruct (dict_lookup GENEROS_ESPANOL (arg_genero args)) as [p|] eqn:Hp;
      [|now eexists].
    destruct H as [H|H].
    - rewrite (dict_lookup_None _ _ H) in Hp. discriminate.
    - cbn [letra_efectiva].
      destruct (validar_letra (letra_de_args args)) as [[|] error]; [|now eexists].
      rewrite H. now eexists. }
  destruct Hg as [m ->]. rewrite informe_fallo by reflexivity.
  cbn [mundo traza yo]. rewrite <- app_assoc. eexists. split; [reflexivity|].
  apply Forall_app. split; [exact F0|]. repeat constructor.
Qed.

(** X15.  With a genre of the catalog and a duration in range,
    [generar_musica] never stops on the lyrics: after its prints it
    constructs a pipeline, always a new one, with the default checkpoint,
    device and precision and the CPU offload of the arguments. *)
Theorem generar_musica_construye (args : Args) (st : Estado Mundo Handle) :
  In (arg_genero args) (dict_keys GENEROS_ESPANOL) ->
  fuera_de_rango (arg_duracion args) = false ->
  exists evs0 evs1,
    traza (fst (generar_musica ext fmt args st)) =
      (traza st ++ evs0 ++
       EvConstruir {| checkpoint_dir := None;
                      device_id := 0;
                      dtype := "bfloat16";
                      torch_compile := false;
                      cpu_offload := arg_cpu_offload args |} :: evs1)%list /\
    Forall es_print evs0.
Proof.
  intros Hg Hd.
  destruct (generar_musica_descompone args st) as (evs0 & F0 & ->).
  match goal with
  | |- context [generar_cancion ext ?g ?l ?d ?s ?n ?st0] =>
      destruct (generar_cancion_intenta_inicio ext g l d s n st0 Hg
                  (proj1 (letra_de_args_valida args)) Hd eq_refl) as [evs1 Ht];
      destruct (generar_cancion ext g l d s n st0) as [st1 [res|e]]
  end; cbn [fst traza yo config GeneradorMusicaEspanol_init] in Ht.
  - destruct (informe_imprime res st1) as (evs2 & r & -> & _ & _). cbn [fst traza].
    rewrite Ht, <- !app_assoc. exists evs0. eexists. split; [reflexivity|exact F0].
  - cbn [fst]. rewrite Ht, <- !app_assoc. exists evs0. eexists.
    split; [reflexivity|exact F0].
Qed.

(** X16.  Whatever happens, the calls [generar_musica] makes outside, its
    prints apart, are those of one [generar_cancion] on the configuration
    built from the arguments: the steps and the output directory are
    those of the arguments, the duration, seed and file name are passed
    on, the lyrics are a template of the catalog, and everything else is
    a default. *)
Theorem generar_musica_eventos (args : Args) (st : Estado Mundo Handle) :
  In (letra_de_args args) (map snd PLANTILLAS_LETRAS) /\
  exists evs,
    traza (fst (generar_musica ext fmt args st)) = (traza st ++ evs)%list /\
    Forall (fun ev =>
              es_print ev \/
              evento_esperado (ConfiguracionGeneracion_de_args args) (arg_genero args)
                (Some (letra_de_args args)) (arg_duracion args) (arg_semilla args)
                (arg_nombre_archivo args) ev)
           evs.
Proof.
  split; [apply letra_de_args_valida|].
  destruct (generar_musica_descompone args st) as (evs0 & F0 & ->).
  match goal with
  | |- context [generar_cancion ext ?g ?l ?d ?s ?n ?st0] =>
      destruct (generar_cancion_eventos ext g l d s n st0) as (evs1 & Ht & F1);
      destruct (generar_cancion ext g l d s n st0) as [st1 [res|e]]
  end; cbn [fst traza yo config GeneradorMusicaEspanol_init] in Ht, F1.
  - destruct (informe_imprime res st1) as (evs2 & r & -> & F2 & _). cbn [fst traza].
    rewrite Ht, <- !app_assoc. eexists. split; [reflexivity|].
    repeat (apply Forall_app; split).
    + eapply Forall_impl; [|exact F0]. intros ev Hev. now left.
    + eapply Forall_impl; [|exact F1]. intros ev Hev. now right.
    + eapply Forall_impl; [|exact F2]. intros ev Hev. now left.
  - cbn [fst]. rewrite Ht, <- !app_assoc. eexists. split; [reflexivity|].
    apply Forall_app; split.
    + eapply Forall_impl; [|exact F0]. intros ev Hev. now left.
    + eapply Forall_impl; [|exact F1]. intros ev Hev. now right.
Qed.

(** X17.  [generar_musica] does not guard its report: when the generation
    succeeds, that is the pipeline answers with a non-empty list, and the
    last element of the answer is a dictionary whose "timecosts" entry is
    a true value that is not a dictionary, the call of [items] on it
    raises, and the exception leaves [generar_musica] after the audio was
    generated.  The answer may be the dictionary alone. *)
Theorem generar_musica_tiempos_sin_items
    (args : Args) (st : Estado Mundo Handle) (p : string) (h : Handle)
    (w1 w2 w3 : Mundo) (primero : pyval) (resto : list pyval)
    (d : list (string * pyval)) (v : pyval) :
  let c := ConfiguracionGeneracion_de_args args in
  let a := argumentos_llamada c p (letra_de_args args) (arg_duracion args)
             (arg_semilla args) (arg_nombre_archivo args) in
  dict_lookup GENEROS_ESPANOL (arg_genero args) = Some p ->
  fuera_de_rango (arg_duracion args) = false ->
  ext_ACEStepPipeline ext (argumentos_constructor c) (mundo st) = (w1, Ok h) ->
  ext_makedirs ext (arg_salida args) w1 = (w2, Ok tt) ->
  ext_call ext h a w2 = (w3, Ok (PyList (primero :: resto))) ->
  last (primero :: resto) PyNone = PyDict d ->
  dict_lookup d "timecosts" = Some v ->
  py_truthy v = true ->
  (forall d', v <> PyDict d') ->
  exists st',
    generar_musica ext fmt args st =
      (st', Raise (Exception ("'" ++ py_type_name v ++
                              "' object has no attribute 'items'"))) /\
    mundo st' = w3.
Proof.
  intros c a Hp Hd Hctor Hmk Hcall Hult Hv Htrue Hnodict.
  destruct (generar_musica_descompone args st) as (evs0 & F0 & ->).
  rewrite generar_cancion_es_plano. unfold generar_cancion_plano.
  rewrite Hp. cbn [letra_efectiva].
  pose proof (proj1 (letra_de_args_valida args)) as Hl.
  destruct (validar_letra (letra_de_args args)) as [[|] error]; [|discriminate].
  rewrite Hd. unfold inicializar_plano.
  cbn [yo config _inicializado _pipeline mundo traza GeneradorMusicaEspanol_init].
  fold c. rewrite Hctor. unfold generar_plano_listo.
  cbn [yo config _inicializado _pipeline mundo traza].
  change (directorio_salida c) with (arg_salida args). rewrite Hmk.
  fold a. rewrite Hcall.
  unfold informe. cbn [extraer_resultado exitoso tiempos semillas_usadas].
  set (ult := last (primero :: resto) PyNone) in *.
  clearbody ult. subst ult.
  set (t := dict_get d "timecosts" (PyDict [])).
  assert (Ht : t = v) by (subst t; unfold dict_get; now rewrite Hv).
  clearbody t. subst t.
  set (b := py_truthy v). assert (Hb : b = true) by exact Htrue.
  clearbody b. subst b.
  set (imp := imprimir_tiempos fmt v).
  assert (Hraise : imp = raise (Mundo:=Mundo) (Handle:=Handle)
                          (Exception ("'" ++ py_type_name v ++
                                      "' object has no attribute 'items'"))).
  { subst imp. destruct v; try reflexivity. now destruct (Hnodict d0). }
  clearbody imp. subst imp.
  cbn [bind print raise]. eexists. split; reflexivity.
Qed.

End PropiedadesDemo.

(** ** The further properties in the small concrete world *)

(** X4 at empty lyrics, with a duration that is out of range as well. *)
Lemma generar_cancion_letra_invalida_witness :
  generar_cancion (exterior_fijo (Ok 7) (Ok tt) (Ok respuesta_normal))
    "pop_latino" (Some "") 5.0%float None None estado_nuevo =
  (estado_nuevo, Ok (resultado_fallido "Error en la letra: La letra no puede estar vacía")).
Proof.
  apply (generar_cancion_letra_invalida
           (exterior_fijo (Ok 7) (Ok tt) (Ok respuesta_normal))
           "pop_latino" (Some "") 5.0%float None None estado_nuevo
           "La letra no puede estar vacía").
  - cbn. tauto.
  - reflexivity.
Defined.

(** X5 at a call on an initialised generator that gets the usual answer. *)
Lemma generar_cancion_exito_witness :
  exists r,
    snd (generar_cancion (exterior_fijo (Ok 7) (Ok tt) (Ok respuesta_normal))
           "pop_latino" None 60.0%float (Some 42%Z) None estado_listo) = Ok r /\
    ruta_audio r = Some "./salidas_espanol/output.wav" /\
    semillas_usadas r = PyList [PyInt 42].
Proof.
  assert (Hl : fst (validar_letra (letra_efectiva None)) = true)
    by (vm_compute; reflexivity).
  destruct (generar_cancion_exito
              (exterior_fijo (Ok 7) (Ok tt) (Ok respuesta_normal))
              "pop_latino" None 60.0%float (Some 42%Z) None estado_listo
              "pop, latin pop, tropical, catchy, upbeat, spanish" 7 1 2
              "./salidas_espanol/output.wav"
              [PyDict [("timecosts", PyDict [("diffusion", PyFloat 1.5%float)]);
                       ("actual_seeds", PyList [PyInt 42])]]
              eq_refl Hl eq_refl eq_refl eq_refl eq_refl eq_refl)
    as (r & Hr & _ & Hruta & _ & Hd & _).
  exists r. rewrite Hr. split; [reflexivity|]. split; [exact Hruta|].
  destruct (Hd [] _ eq_refl) as (_ & _ & Hs). exact Hs.
Defined.

(** X6 at a call on an initialised generator whose pipeline raises. *)
Lemma generar_cancion_llamada_falla_witness :
  snd (generar_cancion
         (exterior_fijo (Ok 7) (Ok tt) (Raise (Exception "CUDA out of memory")))
         "pop_latino" None 60.0%float None None estado_listo) =
  Ok (resultado_fallido "Error durante la generación: CUDA out of memory").
Proof.
  assert (Hl : fst (validar_letra (letra_efectiva None)) = true)
    by (vm_compute; reflexivity).
  rewrite (generar_cancion_llamada_falla
             (exterior_fijo (Ok 7) (Ok tt) (Raise (Exception "CUDA out of memory")))
             "pop_latino" None 60.0%float None None estado_listo
             "pop, latin pop, tropical, catchy, upbeat, spanish" 7 1 2
             (Exception "CUDA out of memory")
             eq_refl Hl eq_refl eq_refl eq_refl eq_refl eq_refl).
  reflexivity.
Defined.

(** X9 at a demo on a new generator. *)
Lemma generar_demo_reconstruye_witness :
  yo (fst (generar_demo (exterior_fijo (Ok 7) (Ok tt) (Ok respuesta_normal))
             "salsa" estado_nuevo)) = yo estado_nuevo.
Proof.
  apply (generar_demo_reconstruye
           (exterior_fijo (Ok 7) (Ok tt) (Ok respuesta_normal)) "salsa" estado_nuevo).
  - cbn. tauto.
  - reflexivity.
Defined.

(** X11 at the file name "/tmp/cancion". *)
Lemma generar_cancion_ruta_de_salida_witness :
  exists evs,
    traza (fst (generar_cancion (exterior_fijo (Ok 7) (Ok tt) (Ok respuesta_normal))
                  "pop_latino" None 60.0%float None (Some "/tmp/cancion")
                  estado_nuevo)) = evs /\
    Forall (eq "/tmp/cancion.wav") (rutas_entregadas evs).
Proof.
  destruct (generar_cancion_ruta_de_salida
              (exterior_fijo (Ok 7) (Ok tt) (Ok respuesta_normal))
              "pop_latino" None 60.0%float None (Some "/tmp/cancion") estado_nuevo)
    as (evs & Ht & _ & _ & H).
  exists evs. split; [exact Ht|].
  apply (H "/tmp/cancion"); reflexivity.
Defined.



(** X14 at the duration 5.0. *)
Lemma generar_musica_rechaza_witness :
  snd (generar_musica (exterior_fijo (Ok 7) (Ok tt) (Ok respuesta_normal)) formato_fijo
         {| arg_listar_generos := false;
            arg_listar_plantillas := false;
            arg_genero := "salsa";
            arg_plantilla := Some "fiesta";
            arg_duracion := 5.0%float;
            arg_pasos := 60;
            arg_semilla := None;
            arg_salida := "./salidas_espanol";
            arg_nombre_archivo := None;
            arg_cpu_offload := false |} estado_nuevo) = Ok 1%Z.
Proof.
  destruct (generar_musica_rechaza
              (exterior_fijo (Ok 7) (Ok tt) (Ok respuesta_normal)) formato_fijo
              {| arg_listar_generos := false;
                 arg_listar_plantillas := false;
                 arg_genero := "salsa";
                 arg_plantilla := Some "fiesta";
                 arg_duracion := 5.0%float;
                 arg_pasos := 60;
                 arg_semilla := None;
                 arg_salida := "./salidas_espanol";
                 arg_nombre_archivo := None;
                 arg_cpu_offload := false |} estado_nuevo) as (evs & -> & _).
  - right. reflexivity.
  - reflexivity.
Defined.

(** X15 at a run without options. *)
Lemma generar_musica_construye_witness :
  exists evs0 evs1,
    traza (fst (generar_musica (exterior_fijo (Ok 7) (Ok tt) (Ok respuesta_normal))
                  formato_fijo args_por_defecto estado_nuevo)) =
      (evs0 ++
       EvConstruir {| checkpoint_dir := None;
                      device_id := 0;
                      dtype := "bfloat16";
                      torch_compile := false;
                      cpu_offload := false |} :: evs1)%list /\
    Forall es_print evs0.
Proof.
  apply (generar_musica_construye
           (exterior_fijo (Ok 7) (Ok tt) (Ok respuesta_normal)) formato_fijo
           args_por_defecto estado_nuevo).
  - cbn. tauto.
  - reflexivity.
Defined.

(** X17 at an answer that is the dictionary alone, with a list under
    "timecosts". *)
Lemma generar_musica_tiempos_sin_items_witness :
  exists st',
    generar_musica
      (exterior_fijo (Ok 7) (Ok tt)
         (Ok (PyList [PyDict [("timecosts", PyList [PyFloat 1.5%float])]])))
      formato_fijo args_por_defecto estado_nuevo =
    (st', Raise (Exception "'list' object has no attribute 'items'")) /\
    mundo st' = 3.
Proof.
  apply (generar_musica_tiempos_sin_items
           (exterior_fijo (Ok 7) (Ok tt)
              (Ok (PyList [PyDict [("timecosts", PyList [PyFloat 1.5%float])]])))
           formato_fijo args_por_defecto estado_nuevo
           "pop, latin pop, tropical, catchy, upbeat, spanish" 7 1 2 3
           (PyDict [("timecosts", PyList [PyFloat 1.5%float])]) []
           [("timecosts", PyList [PyFloat 1.5%float])] (PyList [PyFloat 1.5%float]));
    try reflexivity.
  intros d'. discriminate.
Defined.

(** ** More on the validator and the composer *)

Lemma isin_app_l (p s b : string) :
  PyStr.isin p s = true -> PyStr.isin p (s ++ b) = true.
Proof.
  intros H. apply isin_iff in H as (a & c & ->).
  apply isin_iff. exists a, (c ++ b). now rewrite !append_assoc_s.
Qed.

Lemma solo_espacios_app (s t : string) :
  solo_espacios s -> solo_espacios t -> solo_espacios (s ++ t).
Proof.
  induction 1 as [|e s He Hs IH]; intros Ht; [exact Ht|].
  rewrite append_assoc_s. constructor; auto.
Qed.

Lemma space1_LF (a : ascii) :
  Ascii.eqb a PyStr.LF = false \/ a = PyStr.LF.
Proof. destruct (Ascii.eqb_spec a PyStr.LF); [now right|now left]. Qed.

Lemma space2_sin_LF (a b : ascii) :
  PyStr.space2 a b = true ->
  Ascii.eqb a PyStr.LF = false /\ Ascii.eqb b PyStr.LF = false.
Proof.
  intros H. split.
  - destruct (Ascii.eqb_spec a PyStr.LF) as [->|]; [discriminate H|reflexivity].
  - destruct (Ascii.eqb_spec b PyStr.LF) as [->|]; [|reflexivity].
    unfold PyStr.space2 in H. apply andb_prop in H as [_ H]. discriminate H.
Qed.

Lemma space3_sin_LF (a b c : ascii) :
  PyStr.space3 a b c = true ->
  Ascii.eqb a PyStr.LF = false /\ Ascii.eqb b PyStr.LF = false /\
  Ascii.eqb c PyStr.LF = false.
Proof.
  intros H. repeat split.
  - destruct (Ascii.eqb_spec a PyStr.LF) as [->|]; [discriminate H|reflexivity].
  - destruct (Ascii.eqb_spec b PyStr.LF) as [->|]; [|reflexivity].
    unfold PyStr.space3 in H. cbv zeta in H.
    repeat (apply orb_prop in H as [H|H]);
      apply andb_prop in H as [H _]; apply andb_prop in H as [_ H]; discriminate H.
  - destruct (Ascii.eqb_spec c PyStr.LF) as [->|]; [|reflexivity].
    unfold PyStr.space3 in H. cbv zeta in H.
    repeat (apply orb_prop in H as [H|H]);
      apply andb_prop in H as [_ H]; discriminate H.
Qed.

(** Every line of a whitespace-only text is whitespace only. *)
Lemma split_lines_aux_espacios (s cur : string) :
  solo_espacios s -> solo_espacios cur ->
  Forall solo_espacios (PyStr.split_lines_aux s cur).
Proof.
  intros Hs; revert cur; induction Hs as [|e s He Hs IH]; intros cur Hc.
  - repeat constructor. exact Hc.
  - destruct He as [a Ha|a b Hab|a b c Habc]; cbn [String.append PyStr.split_lines_aux].
    + destruct (space1_LF a) as [E| ->].
      * rewrite E. apply IH. apply solo_espacios_app; [exact Hc|].
        rewrite <- (append_nil_r (String a "")). constructor; [now constructor|constructor].
      * rewrite Ascii.eqb_refl. constructor; [exact Hc|]. apply IH. constructor.
    + destruct (space2_sin_LF a b Hab) as [Ea Eb]. rewrite Ea, Eb.
      apply IH. rewrite append_assoc_s. apply solo_espacios_app; [exact Hc|].
      rewrite <- (append_nil_r (String a "" ++ String b "")).
      constructor; [now constructor|constructor].
    + destruct (space3_sin_LF a b c Habc) as (Ea & Eb & Ec). rewrite Ea, Eb, Ec.
      apply IH. rewrite !append_assoc_s. apply solo_espacios_app; [exact Hc|].
      rewrite <- (append_nil_r (String a "" ++ String b "" ++ String c "")).
      constructor; [now constructor|constructor].
Qed.

(** A whitespace-only text has no content line. *)
Lemma lineas_de_texto_espacios (t : string) :
  solo_espacios t -> lineas_de_texto t = [].
Proof.
  intros Ht. unfold lineas_de_texto, PyStr.split_lines.
  pose proof (split_lines_aux_espacios t "" Ht solo_nada) as HF.
  induction HF as [|l ls Hl _ IH]; [reflexivity|].
  cbn [filter]. apply strip_empty_iff in Hl. rewrite Hl. exact IH.
Qed.

(** The three tests of the validator, read off an accepted text. *)
Lemma validar_letra_aceptada (t : string) :
  fst (validar_letra t) = true <->
  existsb (fun seccion => PyStr.isin seccion (PyStr.lower t)) secciones_validas = true /\
  4 <= List.length (lineas_de_texto t).
Proof.
  unfold validar_letra.
  destruct (negb (PyStr.truthy t) || negb (PyStr.truthy (PyStr.strip t))) eqn:Hv.
  - apply prueba_vacia_iff, lineas_de_texto_espacios in Hv. rewrite Hv.
    cbn. split; [discriminate|]. intros [_ H]. lia.
  - destruct (existsb _ secciones_validas); cbn [negb].
    + destruct (Nat.ltb_spec (List.length (lineas_de_texto t)) 4); cbn [fst].
      * split; [discriminate|]. intros [_ H']. lia.
      * split; [intros _; split; [reflexivity|assumption]|reflexivity].
    + cbn [fst]. split; [discriminate|]. intros [H _]. discriminate.
Qed.

(** X18.  A text is accepted by the validator exactly when it holds one of
    the five markers, in any case, and at least four content lines; so
    lyrics that are accepted stay accepted when any text is added on new
    lines after them or before them. *)
Theorem validar_letra_extension (a b : string) :
  (fst (validar_letra a) = true <->
   (exists marca, In marca secciones_validas /\ aparece_sin_caja marca a) /\
   4 <= List.length (lineas_restantes a)) /\
  (fst (validar_letra a) = true ->
   fst (validar_letra (a ++ PyStr.nl ++ b)) = true /\
   fst (validar_letra (b ++ PyStr.nl ++ a)) = true).
Proof.
  split.
  - rewrite validar_letra_aceptada, tiene_seccion_iff, length_lineas_de_texto.
    reflexivity.
  - rewrite !validar_letra_aceptada, !lineas_de_texto_app, !length_app.
    intros [Hs Hl]. apply existsb_exists in Hs as (m & Hin & Hm).
    split; (split; [|lia]); apply existsb_exists; exists m; (split; [exact Hin|]);
      rewrite !lower_app.
    + now apply isin_app_l.
    + now apply isin_app_r, isin_app_r.
Qed.

(** X21.  Without any verse the composer emits no chorus of its own: the
    text is empty when there is no bridge or an empty one, which the
    validator refuses as empty, and it is the bridge block followed by one
    chorus block otherwise. *)
Theorem crear_letra_sin_versos (coro : string) (bridge : option string) :
  (forall b, bridge = Some b -> b <> "" ->
     crear_letra_personalizada [] coro bridge =
       bloque "[bridge]" b ++ separador ++ bloque "[chorus]" coro) /\
  (bridge = None \/ bridge = Some "" ->
     crear_letra_personalizada [] coro bridge = "" /\
     validar_letra (crear_letra_personalizada [] coro bridge) =
       (false, "La letra no puede estar vacía")).
Proof.
  split.
  - intros b -> Hb. destruct b; [congruence|reflexivity].
  - intros [->| ->]; split; reflexivity.
Qed.

Lemma crear_letra_sin_versos_witness :
  crear_letra_personalizada [] "c1" (Some "b1") =
    bloque "[bridge]" "b1" ++ separador ++ bloque "[chorus]" "c1" /\
  crear_letra_personalizada [] "c1" None = "".
Proof.
  destruct (crear_letra_sin_versos "c1" (Some "b1")) as [H1 _].
  destruct (crear_letra_sin_versos "c1" None) as [_ H2].
  split.
  - apply H1; [reflexivity|discriminate].
  - apply H2. now left.
Defined.

Lemma validar_letra_extension_witness :
  fst (validar_letra (plantilla_amor ++ PyStr.nl ++ "[outro]")) = true.
Proof.
  apply (validar_letra_extension plantilla_amor "[outro]").
  vm_compute. reflexivity.
Defined.

(** ** The initialisation and the results *)

Section InicioYResultados.

Context {Mundo Handle : Type}.
Variable ext : Exterior Mundo Handle.

(** X20.  What [_inicializar_pipeline] returns is the flag it leaves, and
    it never changes the stored configuration.  On an initialised façade
    it returns [True] at once and does nothing else.  Otherwise it attempts
    one construction from the stored configuration: when the construction
    returns a handle, the handle is stored, the flag is set and [True] is
    returned; when it raises an exception that the handler catches, the
    error is printed and [False] is returned with the façade untouched. *)
Theorem inicializar_pipeline_resultado (st : Estado Mundo Handle) :
  let a := argumentos_constructor (config (yo st)) in
  (_inicializado (yo st) = true -> _inicializar_pipeline ext st = (st, Ok true)) /\
  (_inicializado (yo st) = false ->
   forall w r,
     ext_ACEStepPipeline ext a (mundo st) = (w, r) ->
     exists st' listo,
       _inicializar_pipeline ext st = (st', Ok listo) /\
       _inicializado (yo st') = listo /\
       config (yo st') = config (yo st) /\
       mundo st' = w /\
       match r with
       | Ok h =>
           listo = true /\ _pipeline (yo st') = Some h /\
           traza st' = (traza st ++ [EvConstruir a])%list
       | Raise e =>
           listo = false /\ yo st' = yo st /\
           traza st' =
             (traza st ++
              [EvConstruir a;
               EvPrint ("Error al inicializar el pipeline: " ++ exc_str e)])%list
       end).
Proof.
  intros a. rewrite inicializar_pipeline_plano. unfold inicializar_plano.
  destruct (_inicializado (yo st)) eqn:Hi.
  - split; [reflexivity|discriminate].
  - split; [discriminate|]. intros _ w r Hc. fold a. rewrite Hc.
    destruct r as [h|e]; eexists; eexists; (split; [reflexivity|]);
      cbn [tras_evento yo mundo traza config _inicializado _pipeline];
      repeat split; exact Hi.
Qed.

(** X19.  Every result that [generar_cancion] returns has a message, and a
    failed one carries nothing else: no path, no parameters, no timings
    and no seeds. *)
Theorem generar_cancion_resultado
    (genero : string) (letra : option string) (duracion : float)
    (semilla : option Z) (nombre_archivo : option string)
    (st st' : Estado Mundo Handle) (r : ResultadoGeneracion) :
  generar_cancion ext genero letra duracion semilla nombre_archivo st = (st', Ok r) ->
  mensaje r <> "" /\
  (exitoso r = false ->
     ruta_audio r = None /\ parametros r = [] /\
     tiempos r = PyDict [] /\ semillas_usadas r = PyList []).
Proof.
  rewrite generar_cancion_es_plano. unfold generar_cancion_plano. intros H.
  assert (Hf : forall (c : ascii) (m : string) (r0 : ResultadoGeneracion),
            r0 = resultado_fallido (String c m) ->
            mensaje r0 <> "" /\
            (exitoso r0 = false ->
               ruta_audio r0 = None /\ parametros r0 = [] /\
               tiempos r0 = PyDict [] /\ semillas_usadas r0 = PyList [])).
  { intros c m r0 ->. split; [discriminate|]. intros _. repeat split. }
  destruct (dict_lookup GENEROS_ESPANOL genero) as [p|];
    [|injection H as <- <-; now eapply Hf].
  destruct (validar_letra (letra_efectiva letra)) as [[|] error];
    [|injection H as <- <-; now eapply Hf].
  destruct (fuera_de_rango duracion); [injection H as <- <-; now eapply Hf|].
  destruct (inicializar_plano ext st) as [st1 [[|]|e]];
    [|injection H as <- <-; now eapply Hf|discriminate].
  apply generar_plano_listo_casos in H as [[t ->]|(h & a & w & v & Hc & ->)];
    [now eapply Hf|].
  destruct (extraer_resultado_casos v) as [(x & l & -> & He & Hm & Hr)|Hx];
    [|eapply Hf; exact Hx].
  split; [rewrite Hm; discriminate|]. rewrite He. discriminate.
Qed.

End InicioYResultados.

(** X19 at the call with an unknown genre. *)
Lemma generar_cancion_resultado_witness :
  mensaje (resultado_fallido (mensaje_genero "unknown_genre")) <> "".
Proof.
  refine (proj1 (generar_cancion_resultado
                   (exterior_fijo (Ok 7) (Ok tt) (Ok respuesta_normal))
                   "unknown_genre" None 60.0%float None None estado_nuevo estado_nuevo
                   (resultado_fallido (mensaje_genero "unknown_genre")) _)).
  reflexivity.
Defined.

(** X20 at a construction that raises: [False] is returned, the flag stays
    unset and the façade is the one just built. *)
Lemma inicializar_pipeline_resultado_witness :
  exists st',
    _inicializar_pipeline
      (exterior_fijo (Raise (Exception "No module named 'acestep'")) (Ok tt)
         (Ok respuesta_normal)) estado_nuevo = (st', Ok false) /\
    yo st' = yo estado_nuevo.
Proof.
  destruct (proj2 (inicializar_pipeline_resultado
                     (exterior_fijo (Raise (Exception "No module named 'acestep'"))
                        (Ok tt) (Ok respuesta_normal)) estado_nuevo)
              eq_refl 1 (Raise (Exception "No module named 'acestep'")) eq_refl)
    as (st' & listo & Hr & _ & _ & _ & Hl & Hy & _).
  exists st'. subst listo. split; [exact Hr|exact Hy].
Defined.
